(** * Yandex Webmaster MCP server: request client and tool error boundary

    A shallow embedding of [src/lib/index.ts] ([withErrorHandling]) and of
    [src/webmaster-client.ts] ([YandexWebmasterClient]) together with the
    properties the specification states about them.

    Conventions of the embedding.
    - A JavaScript string is a [string]: a sequence of code units, of which
      the embedding represents the units 0..255.
    - A JavaScript number is an integer [Z] (the counters, delays, statuses
      and page sizes the client handles), meant in the range up to 2^53 in
      size, where a double is that integer exactly and prints in plain
      decimal. Fractions, the infinities and [NaN] are not among the values
      of [Value] and [Config]; where the retry ceiling can be any number it
      is a [Number], and the call under it is [makeRequestFor].
    - The values a handler throws are those of [Value], whose string
      coercion is defined; a thrown value whose coercion itself throws is a
      [Raised], and the boundary over such handlers is
      [Any.withErrorHandling].
    - Asynchronous code is sequential here: a promise that resolves is a
      returned value, a promise that rejects is a thrown value, and every
      effect (an HTTP attempt, a backoff wait, a diagnostic line) is appended
      to an explicit event log, the [World].
    - The network is a [Transport]: the answer to the n-th physical attempt.
      A timeout is the transport rejecting with an [AbortError]. *)

From Stdlib Require Import ZArith String Ascii List Lia Bool DecimalString QArith Qround.
From stdpp Require Import base option gmap strings.
From Equations Require Import Equations.
From Equations.Prop Require Import Logic.
Import ListNotations.

Set Warnings "-register-all".

Local Open Scope Z_scope.

(** ** JavaScript values and the built-ins the sources use *)

Module Js.

(** The values a handler can throw and a caller can pass for a parameter.
    [VNum n] is a number that is an integer, of at most 2^53 in size;
    [VError name message] is an [Error] instance whose name and message are
    strings; [VObject] is an ordinary object, whose string coercion is the
    default one. Numbers that are no such integers ([NaN], the infinities,
    fractions), BigInts, Symbols and objects with a [toString] of their own
    or with none are left out. *)
Inductive Value : Type :=
| VUndefined
| VNull
| VBool (b : bool)
| VNum (n : Z)
| VStr (s : string)
| VError (name message : string)
| VObject.

(** [new Error(message)] *)
Definition newError (message : string) : Value := VError "Error" message.

(** [n.toString()] for an integer below 10^21 in size: plain decimal, with
    a sign. (From 10^21 on JavaScript prints an exponent.) *)
Definition numberToString (n : Z) : string :=
  NilZero.string_of_int (Z.to_int n).

(** [String(v)], which is also what a template literal and
    [v.toString()] produce for these values, none of which makes the
    coercion throw. An [Error] prints as "name: message", or only one of
    the two when the other is empty. *)
Definition String_ (v : Value) : string :=
  match v with
  | VUndefined => "undefined"
  | VNull => "null"
  | VBool true => "true"
  | VBool false => "false"
  | VNum n => numberToString n
  | VStr s => s
  | VError name message =>
      if String.eqb name "" then message
      else if String.eqb message "" then name
      else name +:+ ": " +:+ message
  | VObject => "[object Object]"
  end.

(** Truthiness: what [if (v)], [!v] and [v || d] test. *)
Definition truthy (v : Value) : bool :=
  match v with
  | VUndefined | VNull => false
  | VBool b => b
  | VNum n => negb (n =? 0)
  | VStr s => negb (String.eqb s "")
  | VError _ _ | VObject => true
  end.

(** [typeof v] *)
Definition typeof (v : Value) : string :=
  match v with
  | VUndefined => "undefined"
  | VBool _ => "boolean"
  | VNum _ => "number"
  | VStr _ => "string"
  | VNull | VError _ _ | VObject => "object"
  end.

(** White space in the sense of [String.prototype.trim], among the code
    units 0..255: TAB, LF, VT, FF, CR, SPACE and NBSP. *)
Definition isWhiteSpace (c : ascii) : bool :=
  let n := N_of_ascii c in
  ((9 <=? n) && (n <=? 13) || (n =? 32) || (n =? 160))%N.

Fixpoint trimStart (s : string) : string :=
  match s with
  | EmptyString => EmptyString
  | String c s' => if isWhiteSpace c then trimStart s' else s
  end.

Fixpoint trimEnd (s : string) : string :=
  match s with
  | EmptyString => EmptyString
  | String c s' =>
      match trimEnd s' with
      | EmptyString => if isWhiteSpace c then EmptyString else String c EmptyString
      | t => String c t
      end
  end.

(** [s.trim()] *)
Definition trim (s : string) : string := trimEnd (trimStart s).

(** [s.includes(needle)]: [needle] occurs somewhere in [s]. *)
Fixpoint includes (s needle : string) : bool :=
  String.prefix needle s ||
  match s with
  | EmptyString => false
  | String _ s' => includes s' needle
  end.

(** [needle] does not contain the code unit [c]. *)
Fixpoint avoids (c : ascii) (needle : string) : bool :=
  match needle with
  | EmptyString => true
  | String x rest => negb (Ascii.eqb x c) && avoids c rest
  end.

(** A string made of white space only (the empty string included). *)
Fixpoint whitespaceOnly (s : string) : bool :=
  match s with
  | EmptyString => true
  | String c s' => isWhiteSpace c && whitespaceOnly s'
  end.

(** What [JSON.parse] returns: the payload of a successful call. *)
Inductive Json : Type :=
| JNull
| JBool (b : bool)
| JNumber (n : Z)
| JString (s : string)
| JArray (items : list Json)
| JObject (members : list (string * Json)).

(** A JavaScript object used as a record of named values. *)
Abbreviation Object := (gmap string Value).

(** [obj[key]]: a missing key reads as [undefined]. *)
Definition get (obj : Object) (key : string) : Value :=
  default VUndefined (obj !! key).

End Js.
Export Js.

(** ** Effects: the event log and the computations over it *)

(** [fetch] is called with a URL and these options. The abort signal is
    represented by the delay its controller's timer was set with, the
    argument of [setTimeout] (how long the platform then waits is its own
    matter). *)
Inductive Method : Type := GET | POST | DELETE.

Record RequestInit : Type := {
  init_method : Method;
  init_headers : list (string * string);
  init_signal : Z;
  init_body : option string
}.

Inductive Event : Type :=
| EvFetch (url : string) (init : RequestInit)
| EvDelay (ms : Z)
| EvConsoleError (line : string).

Definition World : Type := list Event.

(** A promise settles one way or the other. *)
Inductive Outcome (A : Type) : Type :=
| Returned (a : A)
| Thrown (e : Value).
Arguments Returned {A} a.
Arguments Thrown {A} e.

Definition M (A : Type) : Type := World -> Outcome A * World.

#[global] Instance M_ret : MRet M := fun A a w => (Returned a, w).

#[global] Instance M_bind : MBind M := fun A B f m w =>
  match m w with
  | (Returned a, w1) => f a w1
  | (Thrown e, w1) => (Thrown e, w1)
  end.

(** [throw e] *)
Definition throw {A : Type} (e : Value) : M A := fun w => (Thrown e, w).

(** [try { body } catch (err) { handler }] *)
Definition tryCatch {A : Type} (body : M A) (handler : Value -> M A) : M A :=
  fun w =>
    match body w with
    | (Returned a, w1) => (Returned a, w1)
    | (Thrown err, w1) => handler err w1
    end.

(** A pure built-in that returns or throws. *)
Definition settle {A : Type} (o : Outcome A) : M A := fun w => (o, w).

Definition emit (ev : Event) : M unit := fun w => (Returned tt, w ++ [ev]).

(** [console.error(line)] *)
Definition console_error (line : string) : M unit := emit (EvConsoleError line).

(** The physical HTTP attempts, the waits and the diagnostic lines of a log. *)
Definition isFetch (ev : Event) : bool :=
  match ev with EvFetch _ _ => true | _ => false end.

Definition fetchCount (w : World) : nat := length (List.filter isFetch w).

Definition delaysOf (w : World) : list Z :=
  omap (fun ev => match ev with EvDelay ms => Some ms | _ => None end) w.

(** ** src/lib/index.ts: the tool error boundary *)

Record ContentBlock : Type := {
  type : string;
  text : string
}.

(** [CallToolResult]: [isError] is an optional member. *)
Record CallToolResult : Type := {
  isError : option bool;
  content : list ContentBlock
}.

Definition ToolHandler (T : Type) : Type := T -> M CallToolResult.

(** [err instanceof Error ? err.message : String(err)] is the [match]. The
    handlers here throw values of [Value], on which the catch block runs to
    its end; [Any.withErrorHandling] below is the wrapper over handlers that
    may throw anything. *)
Definition withErrorHandling {T : Type} (handler : ToolHandler T) : ToolHandler T :=
  fun params =>
    tryCatch (handler params) (fun err =>
      let message :=
        match err with
        | VError _ message => message
        | _ => String_ err
        end in
      console_error ("[Tool Error] " +:+ message);;
      mret {| isError := Some true;
              content := [ {| type := "text"; text := "Error: " +:+ message |} ] |}).

(** The message the boundary extracts from a caught value, and the result it
    builds from it. *)
Definition caughtMessage (v : Value) : string :=
  match v with
  | VError _ message => message
  | _ => String_ v
  end.

Definition errorResult (v : Value) : CallToolResult :=
  {| isError := Some true;
     content := [ {| type := "text"; text := "Error: " +:+ caughtMessage v |} ] |}.

(** ** URLSearchParams *)

Module URLSearchParams.

(** An ordered list of name/value pairs. *)
Definition t : Type := list (string * string).

(** [new URLSearchParams()] *)
Definition empty : t := [].

(** [new URLSearchParams({k1: v1, ...})]: the members in their order, each
    value converted to a string. *)
Definition ofRecord (init : list (string * Value)) : t :=
  map (fun kv => (fst kv, String_ (snd kv))) init.

(** [params.set(name, value)]: the first pair called [name] takes the value
    and the later ones are dropped; without one, the pair is appended. *)
Fixpoint set (params : t) (name value : string) : t :=
  match params with
  | [] => [(name, value)]
  | (k, v) :: rest =>
      if String.eqb k name
      then (k, value) :: List.filter (fun kv => negb (String.eqb (fst kv) name)) rest
      else (k, v) :: set rest name value
  end.

Definition keys (params : t) : list string := map fst params.

Definition hexDigit (n : N) : ascii :=
  ascii_of_N (if (n <? 10)%N then 48 + n else 55 + n)%N.

Definition percentEncodeByte (b : N) : string :=
  String "%" (String (hexDigit (b / 16)) (String (hexDigit (b mod 16)) EmptyString)).

(** The application/x-www-form-urlencoded serialisation of one code unit:
    letters, digits and [*-._] stay, a space becomes [+], the rest is the
    percent-encoding of its UTF-8 bytes (two bytes from 128 on). *)
Definition encodeUnit (c : ascii) : string :=
  let n := N_of_ascii c in
  if ((48 <=? n) && (n <=? 57) || (65 <=? n) && (n <=? 90) || (97 <=? n) && (n <=? 122)
      || (n =? 42) || (n =? 45) || (n =? 46) || (n =? 95))%N
  then String c EmptyString
  else if (n =? 32)%N then "+"
  else if (n <? 128)%N then percentEncodeByte n
  else percentEncodeByte (192 + n / 64) +:+ percentEncodeByte (128 + n mod 64).

Fixpoint encode (s : string) : string :=
  match s with
  | EmptyString => EmptyString
  | String c s' => encodeUnit c +:+ encode s'
  end.

(** [params.toString()], also what a template literal makes of [params]. *)
Fixpoint toString (params : t) : string :=
  match params with
  | [] => ""
  | [(k, v)] => encode k +:+ "=" +:+ encode v
  | (k, v) :: rest => encode k +:+ "=" +:+ encode v +:+ "&" +:+ toString rest
  end.

End URLSearchParams.

(** ** src/webmaster-client.ts: the request client *)

Definition API_BASE : string := "https://api.webmaster.yandex.net/v4".

(** [ClientConfig]: every member is optional. *)
Record ClientConfig : Type := {
  cc_timeout : option Z;
  cc_retries : option Z;
  cc_retryDelay : option Z
}.

(** [Required<ClientConfig>], with integers for its members. A ceiling
    [retries] that is any number is a [Number] below, see [makeRequestFor]. *)
Record Config : Type := {
  timeout : Z;
  retries : Z;
  retryDelay : Z
}.

(** [RequestOptions] *)
Record RequestOptions : Type := {
  method : option Method;
  body : option Object
}.

(** [options: RequestOptions = {}] *)
Definition noOptions : RequestOptions := {| method := None; body := None |}.

(** [DateRangeParams] *)
Record DateRangeParams : Type := {
  dateFrom : Value;
  dateTo : Value
}.

(** [SearchQueriesParams extends DateRangeParams]; an optional member that is
    not supplied reads as [undefined]. *)
Record SearchQueriesParams : Type := {
  sq_dateFrom : Value;
  sq_dateTo : Value;
  queryIndicator : Value;
  orderBy : Value;
  limit : Value;
  offset : Value
}.

(** The members that [{...params}] copies. *)
Definition spreadDateRange (params : DateRangeParams) : Object :=
  {[ "dateFrom" := dateFrom params; "dateTo" := dateTo params ]}.

Definition spreadSearchQueries (params : SearchQueriesParams) : Object :=
  {[ "dateFrom" := sq_dateFrom params; "dateTo" := sq_dateTo params;
     "queryIndicator" := queryIndicator params; "orderBy" := orderBy params;
     "limit" := limit params; "offset" := offset params ]}.

Record YandexWebmasterClient : Type := {
  token : string;
  config : Config
}.

(** [value || fallback] on an optional integer: 0 is the one that is
    falsy. ([retriesOrDefault] below is the same on any number.) *)
Definition orElse (value : option Z) (fallback : Z) : Z :=
  match value with
  | Some n => if n =? 0 then fallback else n
  | None => fallback
  end.

(** [config: ClientConfig = {}] *)
Definition noConfig : ClientConfig :=
  {| cc_timeout := None; cc_retries := None; cc_retryDelay := None |}.

Definition constructor (token : string) (config : ClientConfig) : YandexWebmasterClient :=
  {| token := token;
     config := {| timeout := orElse (cc_timeout config) 30000;
                  retries := orElse (cc_retries config) 3;
                  retryDelay := orElse (cc_retryDelay config) 1000 |} |}.

(** What one physical attempt meets: a response with a status and a body
    text, or a rejection (a network failure, or the [AbortError] of the
    timeout). *)
Inductive FetchOutcome : Type :=
| Responds (status : Z) (bodyText : string)
| Rejects (e : Value).

(** The answer to the n-th physical attempt (from 0) at a URL with options. *)
Definition Transport : Type := nat -> string -> RequestInit -> FetchOutcome.

Record Response : Type := {
  status : Z;
  responseText : string
}.

(** [response.ok] *)
Definition ok (response : Response) : bool :=
  (200 <=? status response) && (status response <=? 299).

Definition AbortError : Value := VError "AbortError" "This operation was aborted".

(** [isRetryableError] *)
Definition isRetryableError (error : Value) : bool :=
  match error with
  | VError name message =>
      String.eqb name "AbortError" ||
      includes message "500" ||
      includes message "502" ||
      includes message "503"
  | _ => false
  end.

(** [delay(ms)]: a timer set with [ms] is awaited; the log records the
    delay asked for. *)
Definition delay (ms : Z) : M unit := emit (EvDelay ms).

(** The test of [validateRequired] on one value of [Value]:
    [!v || (typeof v === 'string' && !v.trim())]. *)
Definition rejected (v : Value) : bool :=
  negb (truthy v) ||
  (String.eqb (typeof v) "string" &&
   match v with
   | VStr s => negb (truthy (VStr (trim s)))
   | _ => false
   end).

(** [validateRequired] *)
Fixpoint validateRequired (params : Object) (fields : list string) : M unit :=
  match fields with
  | [] => mret tt
  | field :: rest =>
      if rejected (get params field)
      then throw (newError (field +:+ " is required and must be non-empty"))
      else validateRequired params rest
  end.

(** [hostUrl]; [path] defaults to the empty string at the call sites. *)
Definition hostUrl (userId hostId : Value) (path : string) : string :=
  API_BASE +:+ "/user/" +:+ String_ userId +:+ "/hosts/" +:+ String_ hostId +:+ path.

(** One call of a public operation with its arguments. *)
Inductive Call : Type :=
| GetUserId
| GetHosts (userId : Value)
| GetHostInfo (userId hostId : Value)
| AddHost (userId hostUrl : Value)
| DeleteHost (userId hostId : Value)
| VerifyHost (userId hostId verificationType : Value)
| GetVerificationStatus (userId hostId : Value)
| GetHostOwners (userId hostId : Value)
| GetPopularQueries (userId hostId : Value) (params : SearchQueriesParams)
| GetQueryHistory (userId hostId : Value) (params : DateRangeParams)
| GetSingleQueryHistory (userId hostId queryText : Value) (params : DateRangeParams)
| GetIndexingSummary (userId hostId : Value)
| GetIndexingHistory (userId hostId : Value) (params : DateRangeParams)
| GetIndexingSamples (userId hostId limit offset : Value)
| RequestRecrawl (userId hostId pageUrl : Value)
| GetRecrawlTasks (userId hostId limit offset : Value)
| GetRecrawlTaskStatus (userId hostId taskId : Value)
| GetRecrawlQuota (userId hostId : Value)
| GetSitemaps (userId hostId : Value)
| GetSitemapInfo (userId hostId sitemapId : Value)
| AddSitemap (userId hostId sitemapUrl : Value)
| DeleteSitemap (userId hostId sitemapId : Value)
| GetInternalLinks (userId hostId limit offset : Value)
| GetExternalLinks (userId hostId limit offset : Value)
| GetSqiHistory (userId hostId : Value) (params : DateRangeParams)
| GetRssFeeds (userId hostId : Value)
| AddRssFeed (userId hostId feedUrl : Value)
| GetRssFeedInfo (userId hostId feedId : Value)
| DeleteRssFeed (userId hostId feedId : Value)
| GetSiteDiagnostics (userId hostId : Value).

(** The required parameters of a call, by the name the operation declares
    for each and in the order of its signature, with the values supplied. *)
Definition requiredFields (c : Call) : list (string * Value) :=
  match c with
  | GetUserId => []
  | GetHosts userId => [("userId", userId)]
  | GetHostInfo userId hostId
  | DeleteHost userId hostId
  | GetVerificationStatus userId hostId
  | GetHostOwners userId hostId
  | GetIndexingSummary userId hostId
  | GetRecrawlQuota userId hostId
  | GetSitemaps userId hostId
  | GetRssFeeds userId hostId
  | GetSiteDiagnostics userId hostId
  | GetIndexingSamples userId hostId _ _
  | GetRecrawlTasks userId hostId _ _
  | GetInternalLinks userId hostId _ _
  | GetExternalLinks userId hostId _ _ => [("userId", userId); ("hostId", hostId)]
  | AddHost userId hostUrl => [("userId", userId); ("hostUrl", hostUrl)]
  | VerifyHost userId hostId verificationType =>
      [("userId", userId); ("hostId", hostId); ("verificationType", verificationType)]
  | GetPopularQueries userId hostId params =>
      [("userId", userId); ("hostId", hostId); ("dateFrom", sq_dateFrom params);
       ("dateTo", sq_dateTo params); ("orderBy", orderBy params)]
  | GetQueryHistory userId hostId params
  | GetIndexingHistory userId hostId params
  | GetSqiHistory userId hostId params =>
      [("userId", userId); ("hostId", hostId); ("dateFrom", dateFrom params);
       ("dateTo", dateTo params)]
  | GetSingleQueryHistory userId hostId queryText params =>
      [("userId", userId); ("hostId", hostId); ("queryText", queryText);
       ("dateFrom", dateFrom params); ("dateTo", dateTo params)]
  | RequestRecrawl userId hostId pageUrl =>
      [("userId", userId); ("hostId", hostId); ("pageUrl", pageUrl)]
  | GetRecrawlTaskStatus userId hostId taskId =>
      [("userId", userId); ("hostId", hostId); ("taskId", taskId)]
  | GetSitemapInfo userId hostId sitemapId
  | DeleteSitemap userId hostId sitemapId =>
      [("userId", userId); ("hostId", hostId); ("sitemapId", sitemapId)]
  | AddSitemap userId hostId sitemapUrl =>
      [("userId", userId); ("hostId", hostId); ("sitemapUrl", sitemapUrl)]
  | AddRssFeed userId hostId feedUrl =>
      [("userId", userId); ("hostId", hostId); ("feedUrl", feedUrl)]
  | GetRssFeedInfo userId hostId feedId
  | DeleteRssFeed userId hostId feedId =>
      [("userId", userId); ("hostId", hostId); ("feedId", feedId)]
  end.

(** A value that stands for a missing parameter: absent, [null], or a string
    of white space only. *)
Definition missingOrBlank (v : Value) : bool :=
  match v with
  | VUndefined | VNull => true
  | VStr s => whitespaceOnly s
  | _ => false
  end.

(** The error [makeRequest] raises on a response that is not ok:
    [new Error(`Yandex Webmaster error ${response.status}: ${errorText}`)]. *)
Definition upstreamError (status : Z) (errorText : string) : Value :=
  newError ("Yandex Webmaster error " +:+ numberToString status +:+ ": " +:+ errorText).

(** The three-digit status codes a response can carry. *)
Definition statusCodes : list Z := map Z.of_nat (seq 100 500).

Section Client.

(** The platform: [JSON.parse], [JSON.stringify] and the network. *)
Variable JSON_parse : string -> Outcome Json.
Variable JSON_stringify : Object -> string.
Variable transport : Transport.

Variable this : YandexWebmasterClient.

(** [fetch(url, fetchOptions)]: one physical attempt. *)
Definition fetch (url : string) (fetchOptions : RequestInit) : M Response :=
  fun w =>
    match transport (fetchCount w) url fetchOptions with
    | Responds st txt =>
        (Returned {| status := st; responseText := txt |}, w ++ [EvFetch url fetchOptions])
    | Rejects e => (Thrown e, w ++ [EvFetch url fetchOptions])
    end.

(** The [fetchOptions] that [makeRequest] builds from its [options]. *)
Definition fetchOptionsFor (options : RequestOptions) : RequestInit :=
  {| init_method := default GET (method options);
     init_headers := [ ("Authorization", "OAuth " +:+ token this);
                       ("Content-Type", "application/json") ];
     init_signal := timeout (config this);
     init_body := JSON_stringify <$> body options |}.

(** The [try] block of [makeRequest]. *)
Definition makeRequest_try (url : string) (options : RequestOptions) : M Json :=
  let fetchOptions := fetchOptionsFor options in
  response ← fetch url fetchOptions;
  if negb (ok response) then
    let errorText := responseText response in
    throw (upstreamError (status response) errorText)
  else
    let text := responseText response in
    if truthy (VStr text) then settle (JSON_parse text) else mret (JObject []).

(** [makeRequest]; the recursion is the retry, and each retry moves [attempt]
    one step closer to [retries]. *)
Equations? makeRequest (url : string) (options : RequestOptions) (attempt : Z) (w : World)
  : Outcome Json * World by wf (Z.to_nat (retries (config this) - attempt)) lt :=
makeRequest url options attempt w with makeRequest_try url options w := {
  | (Returned result, w1) => (Returned result, w1)
  | (Thrown error, w1)
      with inspect ((attempt <? retries (config this)) && isRetryableError error) := {
      | exist _ true Hretry =>
          makeRequest url options (attempt + 1)
            (snd (delay (retryDelay (config this) * attempt) w1))
      | exist _ false _ => (Thrown error, w1) } }.
Proof.
  apply andb_true_iff in Hretry as [Hlt _]. apply Z.ltb_lt in Hlt. lia.
Qed.

(** What one pass through the [try] block makes of the transport's answer to
    this physical attempt. *)
Definition settled (answer : FetchOutcome) : Outcome Json :=
  match answer with
  | Rejects e => Thrown e
  | Responds st txt =>
      if negb (ok {| status := st; responseText := txt |})
      then Thrown (upstreamError st txt)
      else if truthy (VStr txt) then JSON_parse txt else Returned (JObject [])
  end.

(** The log of a logical call that made [retried] retries after the attempt
    numbered [attempt]: a physical attempt, then for each retry the wait of
    the attempt before it and the next physical attempt. *)
Fixpoint attemptsLog (url : string) (options : RequestOptions) (attempt : Z) (retried : nat)
  : list Event :=
  EvFetch url (fetchOptionsFor options) ::
  match retried with
  | O => []
  | S k => EvDelay (retryDelay (config this) * attempt)
           :: attemptsLog url options (attempt + 1) k
  end.

(** *** User *)

Definition getUserId : M Json :=
  let url := API_BASE +:+ "/user" in
  makeRequest url noOptions 1.

(** *** Hosts *)

Definition getHosts (userId : Value) : M Json :=
  validateRequired {[ "userId" := userId ]} ["userId"];;
  let url := API_BASE +:+ "/user/" +:+ String_ userId +:+ "/hosts" in
  makeRequest url noOptions 1.

Definition getHostInfo (userId hostId : Value) : M Json :=
  validateRequired {[ "userId" := userId; "hostId" := hostId ]} ["userId"; "hostId"];;
  let url := hostUrl userId hostId "" in
  makeRequest url noOptions 1.

Definition addHost (userId hostUrl : Value) : M Json :=
  validateRequired {[ "userId" := userId; "hostUrl" := hostUrl ]} ["userId"; "hostUrl"];;
  let url := API_BASE +:+ "/user/" +:+ String_ userId +:+ "/hosts" in
  makeRequest url {| method := Some POST; body := Some {[ "host_url" := hostUrl ]} |} 1.

Definition deleteHost (userId hostId : Value) : M Json :=
  validateRequired {[ "userId" := userId; "hostId" := hostId ]} ["userId"; "hostId"];;
  let url := hostUrl userId hostId "" in
  makeRequest url {| method := Some DELETE; body := None |} 1.

(** *** Verification *)

Definition verifyHost (userId hostId verificationType : Value) : M Json :=
  validateRequired
    {[ "userId" := userId; "hostId" := hostId; "verificationType" := verificationType ]}
    ["userId"; "hostId"; "verificationType"];;
  let url := hostUrl userId hostId "/verification" in
  makeRequest url
    {| method := Some POST; body := Some {[ "verification_type" := verificationType ]} |} 1.

Definition getVerificationStatus (userId hostId : Value) : M Json :=
  validateRequired {[ "userId" := userId; "hostId" := hostId ]} ["userId"; "hostId"];;
  let url := hostUrl userId hostId "/verification" in
  makeRequest url noOptions 1.

Definition getHostOwners (userId hostId : Value) : M Json :=
  validateRequired {[ "userId" := userId; "hostId" := hostId ]} ["userId"; "hostId"];;
  let url := hostUrl userId hostId "/owners" in
  makeRequest url noOptions 1.

(** *** Search queries *)

(** The query of [getPopularQueries]: the three required members, then each
    optional one that is truthy. *)
Definition popularQueryParams (params : SearchQueriesParams) : URLSearchParams.t :=
  let queryParams :=
    URLSearchParams.ofRecord
      [ ("date_from", sq_dateFrom params);
        ("date_to", sq_dateTo params);
        ("order_by", orderBy params) ] in
  let queryParams :=
    if truthy (queryIndicator params)
    then URLSearchParams.set queryParams "query_indicator" (String_ (queryIndicator params))
    else queryParams in
  let queryParams :=
    if truthy (limit params)
    then URLSearchParams.set queryParams "limit" (String_ (limit params))
    else queryParams in
  if truthy (offset params)
  then URLSearchParams.set queryParams "offset" (String_ (offset params))
  else queryParams.

Definition getPopularQueries (userId hostId : Value) (params : SearchQueriesParams) : M Json :=
  validateRequired
    (spreadSearchQueries params ∪ {[ "userId" := userId; "hostId" := hostId ]})
    ["userId"; "hostId"; "dateFrom"; "dateTo"; "orderBy"];;
  let queryParams := popularQueryParams params in
  let url :=
    hostUrl userId hostId ("/search-queries/popular?" +:+ URLSearchParams.toString queryParams) in
  makeRequest url noOptions 1.

(** The query of the operations that take a date range only. *)
Definition dateRangeQueryParams (params : DateRangeParams) : URLSearchParams.t :=
  URLSearchParams.ofRecord
    [ ("date_from", dateFrom params); ("date_to", dateTo params) ].

Definition getQueryHistory (userId hostId : Value) (params : DateRangeParams) : M Json :=
  validateRequired
    (spreadDateRange params ∪ {[ "userId" := userId; "hostId" := hostId ]})
    ["userId"; "hostId"; "dateFrom"; "dateTo"];;
  let queryParams := dateRangeQueryParams params in
  let url :=
    hostUrl userId hostId
      ("/search-queries/history/all?" +:+ URLSearchParams.toString queryParams) in
  makeRequest url noOptions 1.

Definition getSingleQueryHistory (userId hostId queryText : Value) (params : DateRangeParams)
  : M Json :=
  validateRequired
    (spreadDateRange params
       ∪ {[ "userId" := userId; "hostId" := hostId; "queryText" := queryText ]})
    ["userId"; "hostId"; "queryText"; "dateFrom"; "dateTo"];;
  let queryParams :=
    URLSearchParams.ofRecord
      [ ("query_text", queryText);
        ("date_from", dateFrom params);
        ("date_to", dateTo params) ] in
  let url :=
    hostUrl userId hostId ("/search-queries/history?" +:+ URLSearchParams.toString queryParams) in
  makeRequest url noOptions 1.

(** *** Indexing *)

Definition getIndexingSummary (userId hostId : Value) : M Json :=
  validateRequired {[ "userId" := userId; "hostId" := hostId ]} ["userId"; "hostId"];;
  let url := hostUrl userId hostId "/summary" in
  makeRequest url noOptions 1.

Definition getIndexingHistory (userId hostId : Value) (params : DateRangeParams) : M Json :=
  validateRequired
    (spreadDateRange params ∪ {[ "userId" := userId; "hostId" := hostId ]})
    ["userId"; "hostId"; "dateFrom"; "dateTo"];;
  let queryParams := dateRangeQueryParams params in
  let url :=
    hostUrl userId hostId ("/indexing/history?" +:+ URLSearchParams.toString queryParams) in
  makeRequest url noOptions 1.

(** The query of the four operations that page with [limit] and [offset]
    ([getIndexingSamples], [getRecrawlTasks], [getInternalLinks],
    [getExternalLinks]): each of the two is set when it is truthy. *)
Definition pageQueryParams (limit offset : Value) : URLSearchParams.t :=
  let queryParams := URLSearchParams.empty in
  let queryParams :=
    if truthy limit
    then URLSearchParams.set queryParams "limit" (String_ limit)
    else queryParams in
  if truthy offset
  then URLSearchParams.set queryParams "offset" (String_ offset)
  else queryParams.

(** [`${path}${queryString ? '?' + queryString : ''}`] *)
Definition withQueryString (path queryString : string) : string :=
  path +:+ (if truthy (VStr queryString) then "?" +:+ queryString else "").

Definition getIndexingSamples (userId hostId limit offset : Value) : M Json :=
  validateRequired {[ "userId" := userId; "hostId" := hostId ]} ["userId"; "hostId"];;
  let queryParams := pageQueryParams limit offset in
  let queryString := URLSearchParams.toString queryParams in
  let url := hostUrl userId hostId (withQueryString "/indexing/samples" queryString) in
  makeRequest url noOptions 1.

(** *** Recrawl *)

Definition requestRecrawl (userId hostId pageUrl : Value) : M Json :=
  validateRequired
    {[ "userId" := userId; "hostId" := hostId; "pageUrl" := pageUrl ]}
    ["userId"; "hostId"; "pageUrl"];;
  let url := hostUrl userId hostId "/recrawl" in
  makeRequest url {| method := Some POST; body := Some {[ "url" := pageUrl ]} |} 1.

Definition getRecrawlTasks (userId hostId limit offset : Value) : M Json :=
  validateRequired {[ "userId" := userId; "hostId" := hostId ]} ["userId"; "hostId"];;
  let queryParams := pageQueryParams limit offset in
  let queryString := URLSearchParams.toString queryParams in
  let url := hostUrl userId hostId (withQueryString "/recrawl/tasks" queryString) in
  makeRequest url noOptions 1.

Definition getRecrawlTaskStatus (userId hostId taskId : Value) : M Json :=
  validateRequired
    {[ "userId" := userId; "hostId" := hostId; "taskId" := taskId ]}
    ["userId"; "hostId"; "taskId"];;
  let url := hostUrl userId hostId ("/recrawl/tasks/" +:+ String_ taskId) in
  makeRequest url noOptions 1.

Definition getRecrawlQuota (userId hostId : Value) : M Json :=
  validateRequired {[ "userId" := userId; "hostId" := hostId ]} ["userId"; "hostId"];;
  let url := hostUrl userId hostId "/recrawl/quota" in
  makeRequest url noOptions 1.

(** *** Sitemaps *)

Definition getSitemaps (userId hostId : Value) : M Json :=
  validateRequired {[ "userId" := userId; "hostId" := hostId ]} ["userId"; "hostId"];;
  let url := hostUrl userId hostId "/sitemaps" in
  makeRequest url noOptions 1.

Definition getSitemapInfo (userId hostId sitemapId : Value) : M Json :=
  validateRequired
    {[ "userId" := userId; "hostId" := hostId; "sitemapId" := sitemapId ]}
    ["userId"; "hostId"; "sitemapId"];;
  let url := hostUrl userId hostId ("/sitemaps/" +:+ String_ sitemapId) in
  makeRequest url noOptions 1.

Definition addSitemap (userId hostId sitemapUrl : Value) : M Json :=
  validateRequired
    {[ "userId" := userId; "hostId" := hostId; "sitemapUrl" := sitemapUrl ]}
    ["userId"; "hostId"; "sitemapUrl"];;
  let url := hostUrl userId hostId "/user-added-sitemaps" in
  makeRequest url {| method := Some POST; body := Some {[ "url" := sitemapUrl ]} |} 1.

Definition deleteSitemap (userId hostId sitemapId : Value) : M Json :=
  validateRequired
    {[ "userId" := userId; "hostId" := hostId; "sitemapId" := sitemapId ]}
    ["userId"; "hostId"; "sitemapId"];;
  let url := hostUrl userId hostId ("/user-added-sitemaps/" +:+ String_ sitemapId) in
  makeRequest url {| method := Some DELETE; body := None |} 1.

(** *** Links *)

Definition getInternalLinks (userId hostId limit offset : Value) : M Json :=
  validateRequired {[ "userId" := userId; "hostId" := hostId ]} ["userId"; "hostId"];;
  let queryParams := pageQueryParams limit offset in
  let queryString := URLSearchParams.toString queryParams in
  let url := hostUrl userId hostId (withQueryString "/links/internal/samples" queryString) in
  makeRequest url noOptions 1.

Definition getExternalLinks (userId hostId limit offset : Value) : M Json :=
  validateRequired {[ "userId" := userId; "hostId" := hostId ]} ["userId"; "hostId"];;
  let queryParams := pageQueryParams limit offset in
  let queryString := URLSearchParams.toString queryParams in
  let url := hostUrl userId hostId (withQueryString "/links/external/samples" queryString) in
  makeRequest url noOptions 1.

(** *** SQI *)

Definition getSqiHistory (userId hostId : Value) (params : DateRangeParams) : M Json :=
  validateRequired
    (spreadDateRange params ∪ {[ "userId" := userId; "hostId" := hostId ]})
    ["userId"; "hostId"; "dateFrom"; "dateTo"];;
  let queryParams := dateRangeQueryParams params in
  let url := hostUrl userId hostId ("/sqi/history?" +:+ URLSearchParams.toString queryParams) in
  makeRequest url noOptions 1.

(** *** RSS feeds *)

Definition getRssFeeds (userId hostId : Value) : M Json :=
  validateRequired {[ "userId" := userId; "hostId" := hostId ]} ["userId"; "hostId"];;
  let url := hostUrl userId hostId "/rss-feeds" in
  makeRequest url noOptions 1.

Definition addRssFeed (userId hostId feedUrl : Value) : M Json :=
  validateRequired
    {[ "userId" := userId; "hostId" := hostId; "feedUrl" := feedUrl ]}
    ["userId"; "hostId"; "feedUrl"];;
  let url := hostUrl userId hostId "/rss-feeds" in
  makeRequest url {| method := Some POST; body := Some {[ "url" := feedUrl ]} |} 1.

Definition getRssFeedInfo (userId hostId feedId : Value) : M Json :=
  validateRequired
    {[ "userId" := userId; "hostId" := hostId; "feedId" := feedId ]}
    ["userId"; "hostId"; "feedId"];;
  let url := hostUrl userId hostId ("/rss-feeds/" +:+ String_ feedId) in
  makeRequest url noOptions 1.

Definition deleteRssFeed (userId hostId feedId : Value) : M Json :=
  validateRequired
    {[ "userId" := userId; "hostId" := hostId; "feedId" := feedId ]}
    ["userId"; "hostId"; "feedId"];;
  let url := hostUrl userId hostId ("/rss-feeds/" +:+ String_ feedId) in
  makeRequest url {| method := Some DELETE; body := None |} 1.

Definition getSiteDiagnostics (userId hostId : Value) : M Json :=
  validateRequired {[ "userId" := userId; "hostId" := hostId ]} ["userId"; "hostId"];;
  let url := hostUrl userId hostId "/diagnostics" in
  makeRequest url noOptions 1.

(** The client method a call invokes. *)
Definition perform (c : Call) : M Json :=
  match c with
  | GetUserId => getUserId
  | GetHosts userId => getHosts userId
  | GetHostInfo userId hostId => getHostInfo userId hostId
  | AddHost userId hostUrl => addHost userId hostUrl
  | DeleteHost userId hostId => deleteHost userId hostId
  | VerifyHost userId hostId verificationType => verifyHost userId hostId verificationType
  | GetVerificationStatus userId hostId => getVerificationStatus userId hostId
  | GetHostOwners userId hostId => getHostOwners userId hostId
  | GetPopularQueries userId hostId params => getPopularQueries userId hostId params
  | GetQueryHistory userId hostId params => getQueryHistory userId hostId params
  | GetSingleQueryHistory userId hostId queryText params =>
      getSingleQueryHistory userId hostId queryText params
  | GetIndexingSummary userId hostId => getIndexingSummary userId hostId
  | GetIndexingHistory userId hostId params => getIndexingHistory userId hostId params
  | GetIndexingSamples userId hostId limit offset =>
      getIndexingSamples userId hostId limit offset
  | RequestRecrawl userId hostId pageUrl => requestRecrawl userId hostId pageUrl
  | GetRecrawlTasks userId hostId limit offset => getRecrawlTasks userId hostId limit offset
  | GetRecrawlTaskStatus userId hostId taskId => getRecrawlTaskStatus userId hostId taskId
  | GetRecrawlQuota userId hostId => getRecrawlQuota userId hostId
  | GetSitemaps userId hostId => getSitemaps userId hostId
  | GetSitemapInfo userId hostId sitemapId => getSitemapInfo userId hostId sitemapId
  | AddSitemap userId hostId sitemapUrl => addSitemap userId hostId sitemapUrl
  | DeleteSitemap userId hostId sitemapId => deleteSitemap userId hostId sitemapId
  | GetInternalLinks userId hostId limit offset => getInternalLinks userId hostId limit offset
  | GetExternalLinks userId hostId limit offset => getExternalLinks userId hostId limit offset
  | GetSqiHistory userId hostId params => getSqiHistory userId hostId params
  | GetRssFeeds userId hostId => getRssFeeds userId hostId
  | AddRssFeed userId hostId feedUrl => addRssFeed userId hostId feedUrl
  | GetRssFeedInfo userId hostId feedId => getRssFeedInfo userId hostId feedId
  | DeleteRssFeed userId hostId feedId => deleteRssFeed userId hostId feedId
  | GetSiteDiagnostics userId hostId => getSiteDiagnostics userId hostId
  end.

End Client.

(** ** src/index.ts: the tool registry *)

(** The registered tools, by the names they are registered under. *)
Inductive Tool : Type :=
| get_user_id
| get_hosts
| get_host_info
| add_host
| delete_host
| verify_host
| get_verification_status
| get_host_owners
| get_popular_queries
| get_query_history
| get_single_query_history
| get_indexing_summary
| get_indexing_history
| get_indexing_samples
| request_recrawl
| get_recrawl_tasks
| get_recrawl_task_status
| get_recrawl_quota
| get_sitemaps
| get_sitemap_info
| add_sitemap
| delete_sitemap
| get_internal_links
| get_external_links
| get_sqi_history
| get_rss_feeds
| add_rss_feed
| get_rss_feed_info
| delete_rss_feed
| get_site_diagnostics.

(** The client call each tool's handler makes from the members of its
    parameter object. *)
Definition toolCall (tool : Tool) (params : Object) : Call :=
  let user_id := get params "user_id" in
  let host_id := get params "host_id" in
  let dateRange :=
    {| dateFrom := get params "date_from"; dateTo := get params "date_to" |} in
  match tool with
  | get_user_id => GetUserId
  | get_hosts => GetHosts user_id
  | get_host_info => GetHostInfo user_id host_id
  | add_host => AddHost user_id (get params "host_url")
  | delete_host => DeleteHost user_id host_id
  | verify_host => VerifyHost user_id host_id (get params "verification_type")
  | get_verification_status => GetVerificationStatus user_id host_id
  | get_host_owners => GetHostOwners user_id host_id
  | get_popular_queries =>
      GetPopularQueries user_id host_id
        {| sq_dateFrom := get params "date_from";
           sq_dateTo := get params "date_to";
           queryIndicator := get params "query_indicator";
           orderBy := get params "order_by";
           limit := get params "limit";
           offset := get params "offset" |}
  | get_query_history => GetQueryHistory user_id host_id dateRange
  | get_single_query_history =>
      GetSingleQueryHistory user_id host_id (get params "query_text") dateRange
  | get_indexing_summary => GetIndexingSummary user_id host_id
  | get_indexing_history => GetIndexingHistory user_id host_id dateRange
  | get_indexing_samples =>
      GetIndexingSamples user_id host_id (get params "limit") (get params "offset")
  | request_recrawl => RequestRecrawl user_id host_id (get params "url")
  | get_recrawl_tasks =>
      GetRecrawlTasks user_id host_id (get params "limit") (get params "offset")
  | get_recrawl_task_status => GetRecrawlTaskStatus user_id host_id (get params "task_id")
  | get_recrawl_quota => GetRecrawlQuota user_id host_id
  | get_sitemaps => GetSitemaps user_id host_id
  | get_sitemap_info => GetSitemapInfo user_id host_id (get params "sitemap_id")
  | add_sitemap => AddSitemap user_id host_id (get params "sitemap_url")
  | delete_sitemap => DeleteSitemap user_id host_id (get params "sitemap_id")
  | get_internal_links =>
      GetInternalLinks user_id host_id (get params "limit") (get params "offset")
  | get_external_links =>
      GetExternalLinks user_id host_id (get params "limit") (get params "offset")
  | get_sqi_history => GetSqiHistory user_id host_id dateRange
  | get_rss_feeds => GetRssFeeds user_id host_id
  | add_rss_feed => AddRssFeed user_id host_id (get params "feed_url")
  | get_rss_feed_info => GetRssFeedInfo user_id host_id (get params "feed_id")
  | delete_rss_feed => DeleteRssFeed user_id host_id (get params "feed_id")
  | get_site_diagnostics => GetSiteDiagnostics user_id host_id
  end.

Section Tools.

(** The platform, with [JSON.stringify(value, null, 2)] on a parsed payload,
    and the token the process was started with. *)
Variable JSON_parse : string -> Outcome Json.
Variable JSON_stringify : Object -> string.
Variable JSON_stringify_pretty : Json -> string.
Variable transport : Transport.
Variable token : string.

(** [const client = new YandexWebmasterClient(token)] *)
Definition client : YandexWebmasterClient := constructor token noConfig.

(** The handler passed to [withErrorHandling] for a tool: the client call,
    then its result printed as the one text block. *)
Definition handler (tool : Tool) : ToolHandler Object :=
  fun params =>
    result ← perform JSON_parse JSON_stringify transport client (toolCall tool params);
    mret {| isError := None;
            content := [ {| type := "text"; text := JSON_stringify_pretty result |} ] |}.

(** The callback [server.registerTool] receives for a tool. The server
    calls it with the parameter objects that pass the tool's [inputSchema]
    ([conforms] below); the callback itself takes any parameter object. *)
Definition registeredTool (tool : Tool) : ToolHandler Object :=
  withErrorHandling (handler tool).

End Tools.

(** ** src/index.ts: the input schemas *)

(** The three shapes a schema gives a parameter: [z.string()],
    [z.string().optional()] and [z.number().optional()]. *)
Inductive ParameterKind : Type := RequiredString | OptionalString | OptionalNumber.

(** The [inputSchema] each tool is registered with. *)
Definition inputSchema (tool : Tool) : list (string * ParameterKind) :=
  match tool with
  | get_user_id => []
  | get_hosts =>
      [ ("user_id", RequiredString) ]
  | get_host_info =>
      [ ("user_id", RequiredString); ("host_id", RequiredString) ]
  | add_host =>
      [ ("user_id", RequiredString); ("host_url", RequiredString) ]
  | delete_host =>
      [ ("user_id", RequiredString); ("host_id", RequiredString) ]
  | verify_host =>
      [ ("user_id", RequiredString); ("host_id", RequiredString);
        ("verification_type", RequiredString) ]
  | get_verification_status =>
      [ ("user_id", RequiredString); ("host_id", RequiredString) ]
  | get_host_owners =>
      [ ("user_id", RequiredString); ("host_id", RequiredString) ]
  | get_popular_queries =>
      [ ("user_id", RequiredString); ("host_id", RequiredString);
        ("date_from", RequiredString); ("date_to", RequiredString);
        ("order_by", RequiredString); ("query_indicator", OptionalString);
        ("limit", OptionalNumber); ("offset", OptionalNumber) ]
  | get_query_history =>
      [ ("user_id", RequiredString); ("host_id", RequiredString);
        ("date_from", RequiredString); ("date_to", RequiredString) ]
  | get_single_query_history =>
      [ ("user_id", RequiredString); ("host_id", RequiredString);
        ("query_text", RequiredString); ("date_from", RequiredString);
        ("date_to", RequiredString) ]
  | get_indexing_summary =>
      [ ("user_id", RequiredString); ("host_id", RequiredString) ]
  | get_indexing_history =>
      [ ("user_id", RequiredString); ("host_id", RequiredString);
        ("date_from", RequiredString); ("date_to", RequiredString) ]
  | get_indexing_samples =>
      [ ("user_id", RequiredString); ("host_id", RequiredString); ("limit", OptionalNumber);
        ("offset", OptionalNumber) ]
  | request_recrawl =>
      [ ("user_id", RequiredString); ("host_id", RequiredString); ("url", RequiredString) ]
  | get_recrawl_tasks =>
      [ ("user_id", RequiredString); ("host_id", RequiredString); ("limit", OptionalNumber);
        ("offset", OptionalNumber) ]
  | get_recrawl_task_status =>
      [ ("user_id", RequiredString); ("host_id", RequiredString); ("task_id", RequiredString) ]
  | get_recrawl_quota =>
      [ ("user_id", RequiredString); ("host_id", RequiredString) ]
  | get_sitemaps =>
      [ ("user_id", RequiredString); ("host_id", RequiredString) ]
  | get_sitemap_info =>
      [ ("user_id", RequiredString); ("host_id", RequiredString);
        ("sitemap_id", RequiredString) ]
  | add_sitemap =>
      [ ("user_id", RequiredString); ("host_id", RequiredString);
        ("sitemap_url", RequiredString) ]
  | delete_sitemap =>
      [ ("user_id", RequiredString); ("host_id", RequiredString);
        ("sitemap_id", RequiredString) ]
  | get_internal_links =>
      [ ("user_id", RequiredString); ("host_id", RequiredString); ("limit", OptionalNumber);
        ("offset", OptionalNumber) ]
  | get_external_links =>
      [ ("user_id", RequiredString); ("host_id", RequiredString); ("limit", OptionalNumber);
        ("offset", OptionalNumber) ]
  | get_sqi_history =>
      [ ("user_id", RequiredString); ("host_id", RequiredString);
        ("date_from", RequiredString); ("date_to", RequiredString) ]
  | get_rss_feeds =>
      [ ("user_id", RequiredString); ("host_id", RequiredString) ]
  | add_rss_feed =>
      [ ("user_id", RequiredString); ("host_id", RequiredString); ("feed_url", RequiredString) ]
  | get_rss_feed_info =>
      [ ("user_id", RequiredString); ("host_id", RequiredString); ("feed_id", RequiredString) ]
  | delete_rss_feed =>
      [ ("user_id", RequiredString); ("host_id", RequiredString); ("feed_id", RequiredString) ]
  | get_site_diagnostics =>
      [ ("user_id", RequiredString); ("host_id", RequiredString) ]
  end.

(** A member of a parameter object as a schema shape admits it. *)
Definition admits (kind : ParameterKind) (member : option Value) : bool :=
  match kind, member with
  | RequiredString, Some (VStr _) => true
  | OptionalString, (None | Some VUndefined | Some (VStr _)) => true
  | OptionalNumber, (None | Some VUndefined | Some (VNum _)) => true
  | _, _ => false
  end.

(** A parameter object the schema of a tool lets through to its handler. *)
Definition conforms (tool : Tool) (params : Object) : bool :=
  forallb (fun entry => admits (snd entry) (params !! fst entry)) (inputSchema tool).

(** ** The boundary and values that cannot be made a string *)

(** What a handler can throw, as the catch block of the boundary meets it:
    - [Coercible v]: one of the values above, whose message and string
      coercion are defined;
    - [Printable text]: any other value of which the catch block makes the
      message [text]: an object with a [toString] of its own, an [Error]
      whose message is no string, a number that is no such integer, a
      BigInt, a Symbol (which [String] prints);
    - [Uncoercible failure]: a value that cannot be made a string, so that
      reading the message, [String(err)] or the template literal throws
      [failure]: a [TypeError] for [Object.create(null)] and for an [Error]
      whose message is a [Symbol], and whatever its [toString] or its
      [message] getter throws for an object with a throwing one. *)
Inductive Raised : Type :=
| Coercible (v : Value)
| Printable (text : string)
| Uncoercible (failure : Raised).

(** How a handler that may throw any value settles. *)
Inductive Settled (A : Type) : Type :=
| Resolved (a : A)
| Rejected (r : Raised).
Arguments Resolved {A} a.
Arguments Rejected {A} r.

Definition AnyToolHandler (T : Type) : Type := T -> World -> Settled CallToolResult * World.

Module Any.

(** The message of lines 12 to 16 for a caught value, or what computing and
    interpolating it throws. *)
Definition messageOf (err : Raised) : string + Raised :=
  match err with
  | Coercible v => inl (caughtMessage v)
  | Printable text => inl text
  | Uncoercible failure => inr failure
  end.

(** [withErrorHandling] over handlers that may throw any value: nothing
    guards the catch block, so what the coercion throws leaves the wrapper,
    before anything is logged. *)
Definition withErrorHandling {T : Type} (handler : AnyToolHandler T) : AnyToolHandler T :=
  fun params w =>
    match handler params w with
    | (Resolved result, w1) => (Resolved result, w1)
    | (Rejected err, w1) =>
        match messageOf err with
        | inl message =>
            (Resolved {| isError := Some true;
                         content := [ {| type := "text"; text := "Error: " +:+ message |} ] |},
             w1 ++ [EvConsoleError ("[Tool Error] " +:+ message)])
        | inr failure => (Rejected failure, w1)
        end
    end.


End Any.

(** ** The retry ceiling as a JavaScript number *)

(** The numbers [config.retries] can be: the finite ones (a double is a
    rational), the two infinities and [NaN]. *)
Inductive Number : Type :=
| Finite (q : Q)
| PlusInfinity
| MinusInfinity
| NotANumber.

(** [attempt < ceiling], the attempt counter being an integer. *)
Definition below (attempt : Z) (ceiling : Number) : bool :=
  match ceiling with
  | Finite q => negb (Qle_bool q (inject_Z attempt))
  | PlusInfinity => true
  | MinusInfinity | NotANumber => false
  end.


(** The client [this] with the integer [ceiling] for its [retries]. *)
Definition withRetries (this : YandexWebmasterClient) (ceiling : Z) : YandexWebmasterClient :=
  {| token := token this;
     config := {| timeout := timeout (config this);
                  retries := ceiling;
                  retryDelay := retryDelay (config this) |} |}.

Section CeilingAsNumber.

Variable JSON_parse : string -> Outcome Json.
Variable JSON_stringify : Object -> string.
Variable transport : Transport.
Variable this : YandexWebmasterClient.

(** [makeRequest] with the number [ceiling] for [this.config.retries] (the
    token, the timeout and the delay are those of [this]), followed for at
    most [fuel] physical attempts: [None] when the call has not settled by
    then. *)
Fixpoint makeRequestFor (ceiling : Number) (fuel : nat)
         (url : string) (options : RequestOptions) (attempt : Z) (w : World)
  : option (Outcome Json * World) :=
  match fuel with
  | O => None
  | S fuel' =>
      match makeRequest_try JSON_parse JSON_stringify transport this url options w with
      | (Returned result, w1) => Some (Returned result, w1)
      | (Thrown error, w1) =>
          if below attempt ceiling && isRetryableError error
          then makeRequestFor ceiling fuel' url options (attempt + 1)
                 (snd (delay (retryDelay (config this) * attempt) w1))
          else Some (Thrown error, w1)
      end
  end.

End CeilingAsNumber.

(** ** Measures on logs and strings, for the statements below *)

(** The sum of the waits a log asks for, in milliseconds. *)
Definition totalDelay (w : World) : Z := fold_right Z.add 0 (delaysOf w).

(** A value that is no number, or an integer of at most 2^53 in size: the
    numbers that are integers of the program exactly and that [toString]
    prints in plain decimal. *)
Definition inSafeRange (v : Value) : bool :=
  match v with
  | VNum k => Z.abs k <=? 2 ^ 53
  | _ => true
  end.

(** The URLs of the physical attempts of a log, and the options they carry. *)
Definition fetchesOf (w : World) : list (string * RequestInit) :=
  omap (fun ev => match ev with EvFetch url init => Some (url, init) | _ => None end) w.

(** How often the code unit [c] occurs in [s]. *)
Fixpoint countChar (c : ascii) (s : string) : nat :=
  match s with
  | EmptyString => O
  | String x rest => (if Ascii.eqb x c then 1 else 0) + countChar c rest
  end.

(** A path as the client passes it to [hostUrl]: empty, or beginning with a
    slash. *)
Definition isPath (path : string) : bool :=
  match path with
  | EmptyString => true
  | String c _ => Ascii.eqb c "/"
  end.

(** An outcome after which the attempt numbered [attempt] is the last one
    under the ceiling [ceiling]: a result, an error that is not retryable,
    or any error once the ceiling is reached. *)
Definition decisive (ceiling attempt : Z) (o : Outcome Json) : Prop :=
  match o with
  | Returned _ => True
  | Thrown e => isRetryableError e = false \/ ceiling <= attempt
  end.

(** ** A sample platform, for the concrete runs below *)

Definition sampleParse (text : string) : Outcome Json :=
  if String.eqb text "[1]" then Returned (JArray [JNumber 1])
  else Thrown (VError "SyntaxError" "Unexpected token").

Definition sampleStringify (_ : Object) : string := "{}".

(** Two responses 503, then 200 with the body [[1]]. *)
Definition failingTwice : Transport :=
  fun n _ _ =>
    if (n <? 2)%nat then Responds 503 "Service Unavailable" else Responds 200 "[1]".

(** 503 on every attempt. *)
Definition alwaysUnavailable : Transport :=
  fun _ _ _ => Responds 503 "Service Unavailable".

(** 404 on every attempt, with a body that mentions the number 503. *)
Definition notFoundMentioning503 : Transport :=
  fun _ _ _ => Responds 404 "task 503 not found".

(** 404 on every attempt, with a body free of the three markers. *)
Definition notFound : Transport :=
  fun _ _ _ => Responds 404 "host not found".

(** [new YandexWebmasterClient("token")] *)
Definition defaultClient : YandexWebmasterClient := constructor "token" noConfig.

(** * Properties *)

(** ** The built-ins on concrete inputs *)

Example trim_strips_both_ends : trim "  host 1   " = "host 1".
Proof. reflexivity. Qed.

Example trim_of_blank_is_empty : trim "    " = "".
Proof. reflexivity. Qed.

Example numberToString_prints_sign : numberToString (-12) = "-12" /\ numberToString 0 = "0".
Proof. split; reflexivity. Qed.

Example toString_encodes_reserved :
  URLSearchParams.toString [("query_text", "a b&c=d/e"); ("limit", "10")]
  = "query_text=a+b%26c%3Dd%2Fe&limit=10".
Proof. reflexivity. Qed.

Example set_replaces_first_and_drops_rest :
  URLSearchParams.set [("limit", "1"); ("offset", "2"); ("limit", "3")] "limit" "9"
  = [("limit", "9"); ("offset", "2")].
Proof. reflexivity. Qed.

Example constructor_defaults :
  config (constructor "token" noConfig)
  = {| timeout := 30000; retries := 3; retryDelay := 1000 |}
  /\ retries (config (constructor "token"
                        {| cc_timeout := None; cc_retries := Some 0; cc_retryDelay := None |}))
     = 3.
Proof. split; reflexivity. Qed.

Example timeout_is_retryable : isRetryableError AbortError = true.
Proof. reflexivity. Qed.

Example empty_body_is_empty_object :
  makeRequest sampleParse sampleStringify (fun _ _ _ => Responds 200 "") defaultClient
    (API_BASE +:+ "/user") noOptions 1 []
  = (Returned (JObject []),
     [EvFetch (API_BASE +:+ "/user") (fetchOptionsFor sampleStringify defaultClient noOptions)]).
Proof. reflexivity. Qed.

(** ** The error boundary *)

Section ErrorBoundary.

Context {T : Type}.
Variable handler : ToolHandler T.

Lemma withErrorHandling_returned (params : T) (w w' : World) (r : CallToolResult) :
  handler params w = (Returned r, w') ->
  withErrorHandling handler params w = (Returned r, w').
Proof.
  intros Hrun. unfold withErrorHandling, tryCatch. rewrite Hrun. reflexivity.
Qed.

Lemma withErrorHandling_thrown (params : T) (w w' : World) (v : Value) :
  handler params w = (Thrown v, w') ->
  withErrorHandling handler params w
  = (Returned (errorResult v), w' ++ [EvConsoleError ("[Tool Error] " +:+ caughtMessage v)]).
Proof.
  intros Hrun. unfold withErrorHandling, tryCatch. rewrite Hrun.
  destruct v; reflexivity.
Qed.

Lemma withErrorHandling_total (params : T) (w : World) :
  exists r w', withErrorHandling handler params w = (Returned r, w').
Proof.
  destruct (handler params w) as [[r | v] w'] eqn:Hrun.
  - exists r, w'. apply withErrorHandling_returned. exact Hrun.
  - eexists _, _. apply withErrorHandling_thrown. exact Hrun.
Qed.

End ErrorBoundary.





(** C3 as stated fails: a handler may resolve normally with a result that
    carries [isError] itself, and the boundary passes it on as it is. *)
Lemma passed_result_may_carry_isError :
  ~ (forall (T : Type) (handler : ToolHandler T) (params : T) (w w' : World)
            (r : CallToolResult),
        handler params w = (Returned r, w') ->
        exists out,
          withErrorHandling handler params w = (Returned out, w') /\
          out = r /\ isError out = None).
Proof.
  intros Hclaim.
  pose (r := {| isError := Some true;
                content := [ {| type := "text"; text := "quota exceeded" |} ] |}).
  destruct (Hclaim unit (fun _ => mret r) tt [] [] r eq_refl)
    as (out & _ & Hout & Habsent).
  subst out. discriminate Habsent.
Qed.

(** C3, amended. When the handler resolves normally, the boundary's output
    is the handler's output, unchanged, and the state is the one the handler
    left; the boundary adds no [isError], so the flag is absent from the
    result whenever it is absent from what the handler returned. *)
Theorem withErrorHandling_passes_result_through
  (T : Type) (handler : ToolHandler T) (params : T) (w w' : World) (r : CallToolResult) :
  handler params w = (Returned r, w') ->
  exists out,
    withErrorHandling handler params w = (Returned out, w') /\
    out = r /\
    (isError r = None -> isError out = None).
Proof.
  intros Hrun. exists r. split; [| split].
  - now apply withErrorHandling_returned.
  - reflexivity.
  - trivial.
Qed.

(** The handler of the repository's test: one text block "ok", no flag. *)
Lemma withErrorHandling_passes_result_through_witness :
  exists out,
    withErrorHandling
      (fun _ : unit =>
         mret {| isError := None; content := [ {| type := "text"; text := "ok" |} ] |})
      tt []
    = (Returned out, []) /\
    out = {| isError := None; content := [ {| type := "text"; text := "ok" |} ] |} /\
    (isError {| isError := None; content := [ {| type := "text"; text := "ok" |} ] |} = None
     -> isError out = None).
Proof.
  exact (withErrorHandling_passes_result_through unit
           (fun _ => mret {| isError := None;
                             content := [ {| type := "text"; text := "ok" |} ] |})
           tt [] []
           {| isError := None; content := [ {| type := "text"; text := "ok" |} ] |}
           eq_refl).
Defined.

(** ** Strings: occurrences across a concatenation *)

Section Includes.

Lemma append_cons (x : ascii) (a b : string) : String x a +:+ b = String x (a +:+ b).
Proof. reflexivity. Qed.

Lemma append_nil_l (b : string) : EmptyString +:+ b = b.
Proof. reflexivity. Qed.

Lemma append_nil_r (a : string) : a +:+ EmptyString = a.
Proof.
  induction a as [| x a IH]; [reflexivity |].
  now rewrite append_cons, IH.
Qed.

Lemma append_assoc (a b c : string) : (a +:+ b) +:+ c = a +:+ (b +:+ c).
Proof.
  induction a as [| x a IH]; [reflexivity |].
  now rewrite !append_cons, IH.
Qed.

Lemma prefix_app_l (p s : string) : String.prefix p (p +:+ s) = true.
Proof.
  induction p as [| c p IH]; simpl; [destruct s; reflexivity |].
  destruct (ascii_dec c c) as [_ | Hne]; [exact IH | now destruct Hne].
Qed.

Lemma includes_prefix (s p : string) : String.prefix p s = true -> includes s p = true.
Proof. intros Hp. destruct s; simpl in *; rewrite Hp; reflexivity. Qed.

Lemma includes_app_r (a s p : string) : includes s p = true -> includes (a +:+ s) p = true.
Proof.
  intros Hs. induction a as [| c a IH]; simpl; [exact Hs |].
  rewrite IH. apply orb_true_r.
Qed.

Lemma prefix_before_separator (c : ascii) (p a b : string) :
  avoids c p = true ->
  String.prefix p (a +:+ String c b) = String.prefix p a.
Proof.
  revert a. induction p as [| x p IH]; intros a Hav.
  - destruct a; reflexivity.
  - simpl in Hav. apply andb_true_iff in Hav as [Hx Hp].
    destruct a as [| y a]; simpl.
    + destruct (ascii_dec x c) as [-> | _]; [| reflexivity].
      rewrite Ascii.eqb_refl in Hx. discriminate.
    + destruct (ascii_dec x y); [now apply IH | reflexivity].
Qed.

(** An occurrence of [p] in [a], a separator that [p] avoids, then [b]
    lies in [a] or in [b]. *)
Lemma includes_across_separator (c : ascii) (p a b : string) :
  avoids c p = true -> p <> EmptyString ->
  includes (a +:+ String c b) p = includes a p || includes b p.
Proof.
  intros Hav Hne. induction a as [| y a IH].
  - destruct p as [| x p]; [congruence |].
    simpl in *. apply andb_true_iff in Hav as [Hx _].
    destruct (ascii_dec x c) as [-> | _]; [| reflexivity].
    rewrite Ascii.eqb_refl in Hx. discriminate.
  - change (String y a +:+ String c b) with (String y (a +:+ String c b)).
    cbn [includes]. rewrite IH.
    change (String y (a +:+ String c b)) with (String y a +:+ String c b).
    rewrite (prefix_before_separator c p (String y a) b Hav).
    now rewrite orb_assoc.
Qed.

(** Where the text of an upstream error can hold one of the three markers:
    in the printed status or in the body text. *)
Lemma includes_upstream_message (st : Z) (txt needle : string) :
  avoids ":" needle = true -> avoids " " needle = true -> avoids "Y" needle = true ->
  avoids "a" needle = true -> avoids "n" needle = true -> avoids "d" needle = true ->
  avoids "e" needle = true -> avoids "x" needle = true -> avoids "W" needle = true ->
  avoids "b" needle = true -> avoids "m" needle = true -> avoids "s" needle = true ->
  avoids "t" needle = true -> avoids "r" needle = true -> avoids "o" needle = true ->
  needle <> EmptyString ->
  includes ("Yandex Webmaster error " +:+ numberToString st +:+ ": " +:+ txt) needle
  = includes (numberToString st) needle || includes txt needle.
Proof.
  intros Hc Hsp HY Ha Hn Hd He Hx HW Hb Hm Hs Ht Hr Ho Hne.
  assert (Hskip : forall c s, avoids c needle = true ->
                              includes (String c s) needle = includes s needle).
  { intros c s Hav. destruct needle as [| x p]; [congruence |].
    simpl in *. apply andb_true_iff in Hav as [Hxc _].
    destruct (ascii_dec x c) as [-> | _]; [| reflexivity].
    rewrite Ascii.eqb_refl in Hxc. discriminate. }
  change (": " +:+ txt) with (String ":" (String " " txt)).
  rewrite <- append_assoc, (includes_across_separator ":" needle _ _ Hc Hne).
  rewrite (Hskip " "%char txt Hsp). f_equal.
  rewrite !append_cons, append_nil_l.
  now rewrite !Hskip.
Qed.

End Includes.

(** ** How a failure is classified *)

Section Classification.

Lemma isRetryableError_upstream (st : Z) (txt : string) :
  isRetryableError (upstreamError st txt)
  = (includes (numberToString st) "500" || includes txt "500")
    || (includes (numberToString st) "502" || includes txt "502")
    || (includes (numberToString st) "503" || includes txt "503").
Proof.
  unfold upstreamError, newError, isRetryableError.
  rewrite !includes_upstream_message by (reflexivity || discriminate).
  reflexivity.
Qed.

Lemma in_statusCodes (st : Z) : 100 <= st <= 599 -> In st statusCodes.
Proof.
  intros Hst. unfold statusCodes. apply in_map_iff.
  exists (Z.to_nat st). split; [lia |]. apply in_seq. lia.
Qed.

(** Among the three-digit codes, only 500, 502 and 503 print with a marker. *)
Lemma status_markers (st : Z) :
  100 <= st <= 599 ->
  includes (numberToString st) "500" = (st =? 500) /\
  includes (numberToString st) "502" = (st =? 502) /\
  includes (numberToString st) "503" = (st =? 503).
Proof.
  intros Hst.
  assert (Hall : forallb (fun c =>
                   Bool.eqb (includes (numberToString c) "500") (c =? 500)
                   && Bool.eqb (includes (numberToString c) "502") (c =? 502)
                   && Bool.eqb (includes (numberToString c) "503") (c =? 503))
                   statusCodes = true) by (vm_compute; reflexivity).
  rewrite forallb_forall in Hall. specialize (Hall st (in_statusCodes st Hst)).
  apply andb_true_iff in Hall as [Hall H3]. apply andb_true_iff in Hall as [H0 H2].
  apply Bool.eqb_prop in H0, H2, H3. auto.
Qed.

(** The text of an upstream error shows its status. *)
Lemma upstream_message_shows_status (st : Z) (txt : string) :
  includes ("Yandex Webmaster error " +:+ numberToString st +:+ ": " +:+ txt)
           (numberToString st) = true.
Proof.
  apply includes_app_r, includes_prefix, prefix_app_l.
Qed.

End Classification.

(** ** The retry loop *)

Section Retry.

Variable JSON_parse : string -> Outcome Json.
Variable JSON_stringify : Object -> string.
Variable transport : Transport.
Variable this : YandexWebmasterClient.

Local Abbreviation makeRequest := (makeRequest JSON_parse JSON_stringify transport this).
Local Abbreviation makeRequest_try :=
  (makeRequest_try JSON_parse JSON_stringify transport this).
Local Abbreviation fetchOptionsFor := (fetchOptionsFor JSON_stringify this).
Local Abbreviation settled := (settled JSON_parse).
Local Abbreviation attemptsLog := (attemptsLog JSON_stringify this).

Lemma fetchCount_app (w1 w2 : World) :
  fetchCount (w1 ++ w2) = (fetchCount w1 + fetchCount w2)%nat.
Proof. unfold fetchCount. now rewrite List.filter_app, length_app. Qed.

(** [makeRequest] unfolds into its source text. *)
Lemma makeRequest_source (url : string) (options : RequestOptions) (attempt : Z) (w : World) :
  makeRequest url options attempt w =
  match makeRequest_try url options w with
  | (Returned result, w1) => (Returned result, w1)
  | (Thrown error, w1) =>
      if (attempt <? retries (config this)) && isRetryableError error
      then makeRequest url options (attempt + 1)
             (w1 ++ [EvDelay (retryDelay (config this) * attempt)])
      else (Thrown error, w1)
  end.
Proof.
  simp makeRequest.
  destruct (makeRequest_try url options w) as [[result | error] w1]; simpl; [reflexivity |].
  destruct ((attempt <? retries (config this)) && isRetryableError error); reflexivity.
Qed.

Lemma makeRequest_try_spec (url : string) (options : RequestOptions) (w : World) :
  makeRequest_try url options w
  = (settled (transport (fetchCount w) url (fetchOptionsFor options)),
     w ++ [EvFetch url (fetchOptionsFor options)]).
Proof.
  unfold makeRequest_try, mbind, M_bind, fetch, settled.
  destruct (transport _ _ _) as [st txt | e]; [| reflexivity].
  cbn [status responseText].
  destruct (negb (ok _)); [reflexivity |].
  destruct (truthy (VStr txt)); reflexivity.
Qed.

Lemma makeRequest_log (url : string) (options : RequestOptions) (n : nat) :
  forall (attempt : Z) (w : World),
    (Z.to_nat (retries (config this) - attempt) <= n)%nat ->
    exists (retried : nat) (outcome : Outcome Json),
      makeRequest url options attempt w = (outcome, w ++ attemptsLog url options attempt retried)
      /\ (retried = 0%nat \/ attempt + Z.of_nat retried <= retries (config this)).
Proof.
  induction n as [| n IH]; intros attempt w Hn;
    rewrite makeRequest_source, makeRequest_try_spec;
    destruct (settled _) as [result | error];
    try (exists 0%nat; eexists; split; [reflexivity | now left]).
  - replace (attempt <? retries (config this)) with false by (symmetry; apply Z.ltb_ge; lia).
    exists 0%nat. eexists. split; [reflexivity | now left].
  - destruct (attempt <? retries (config this)) eqn:Hlt; cbn [andb];
      [destruct (isRetryableError error) |];
      try (exists 0%nat; eexists; split; [reflexivity | now left]).
    apply Z.ltb_lt in Hlt.
    destruct (IH (attempt + 1)
                ((w ++ [EvFetch url (fetchOptionsFor options)])
                   ++ [EvDelay (retryDelay (config this) * attempt)]))
      as (k & outcome & Hrun & Hbound); [lia |].
    exists (S k), outcome. split.
    + rewrite Hrun. f_equal. cbn [attemptsLog]. now rewrite <- !app_assoc.
    + right. destruct Hbound as [-> | Hk]; lia.
Qed.

Lemma makeRequest_returns (url : string) (options : RequestOptions) (attempt : Z) (w : World)
      (result : Json) :
  settled (transport (fetchCount w) url (fetchOptionsFor options)) = Returned result ->
  makeRequest url options attempt w
  = (Returned result, w ++ [EvFetch url (fetchOptionsFor options)]).
Proof.
  intros Hs. now rewrite makeRequest_source, makeRequest_try_spec, Hs.
Qed.

Lemma makeRequest_retries (url : string) (options : RequestOptions) (attempt : Z) (w : World)
      (error : Value) :
  settled (transport (fetchCount w) url (fetchOptionsFor options)) = Thrown error ->
  attempt < retries (config this) ->
  isRetryableError error = true ->
  makeRequest url options attempt w
  = makeRequest url options (attempt + 1)
      (w ++ [EvFetch url (fetchOptionsFor options);
             EvDelay (retryDelay (config this) * attempt)]).
Proof.
  intros Hs Hlt Hre. rewrite makeRequest_source, makeRequest_try_spec, Hs, Hre.
  apply Z.ltb_lt in Hlt. rewrite Hlt. cbn [andb]. now rewrite <- app_assoc.
Qed.

Lemma makeRequest_propagates (url : string) (options : RequestOptions) (attempt : Z)
      (w : World) (error : Value) :
  settled (transport (fetchCount w) url (fetchOptionsFor options)) = Thrown error ->
  (attempt <? retries (config this)) && isRetryableError error = false ->
  makeRequest url options attempt w
  = (Thrown error, w ++ [EvFetch url (fetchOptionsFor options)]).
Proof.
  intros Hs Hno. now rewrite makeRequest_source, makeRequest_try_spec, Hs, Hno.
Qed.

Lemma fetchCount_after_wait (w : World) (url : string) (init : RequestInit) (ms : Z) :
  fetchCount (w ++ [EvFetch url init; EvDelay ms]) = S (fetchCount w).
Proof. rewrite fetchCount_app. cbn. lia. Qed.

Lemma fetchCount_attemptsLog (url : string) (options : RequestOptions) (retried : nat) :
  forall attempt, fetchCount (attemptsLog url options attempt retried) = S retried.
Proof.
  induction retried as [| k IH]; intros attempt; [reflexivity |].
  cbn [attemptsLog]. change (fetchCount (?a :: ?b :: ?l)) with (S (fetchCount l)).
  now rewrite IH.
Qed.

Lemma delaysOf_attemptsLog (url : string) (options : RequestOptions) (retried : nat) :
  forall attempt,
    delaysOf (attemptsLog url options attempt retried)
    = map (fun k => retryDelay (config this) * (attempt + Z.of_nat k)) (seq 0 retried).
Proof.
  induction retried as [| k IH]; intros attempt; [reflexivity |].
  cbn [attemptsLog]. change (delaysOf (EvFetch ?u ?i :: EvDelay ?ms :: ?l)) with (ms :: delaysOf l).
  rewrite IH. cbn [seq map]. f_equal; [f_equal; lia |].
  rewrite <- seq_shift, map_map. apply map_ext. intros j. f_equal. lia.
Qed.

End Retry.

(** C1. When the [try] block of an attempt fails with an error that is
    classified retryable: below the ceiling the client waits
    [retryDelay * attempt] milliseconds and runs the request again with
    [attempt + 1], otherwise the error propagates. With a ceiling of 3: two
    responses 503 and then a successful one give the parsed result after
    exactly three physical attempts and the waits [retryDelay * 1],
    [retryDelay * 2]; responses 503 throughout give three physical attempts
    and then the failure of the third, whose message contains "503". *)
Theorem retry_waits_linearly_up_to_ceiling
  (JSON_parse : string -> Outcome Json) (JSON_stringify : Object -> string)
  (transport : Transport) (this : YandexWebmasterClient)
  (url : string) (options : RequestOptions) (w : World) :
  let fetchOptions := fetchOptionsFor JSON_stringify this options in
  let makeRequest := makeRequest JSON_parse JSON_stringify transport this in
  (forall (attempt : Z) (error : Value) (w1 : World),
      makeRequest_try JSON_parse JSON_stringify transport this url options w
      = (Thrown error, w1) ->
      isRetryableError error = true ->
      makeRequest url options attempt w
      = if attempt <? retries (config this)
        then makeRequest url options (attempt + 1)
               (w1 ++ [EvDelay (retryDelay (config this) * attempt)])
        else (Thrown error, w1))
  /\
  (retries (config this) = 3 ->
   forall (txt1 txt2 txt : string) (st : Z) (result : Json),
     transport (fetchCount w) url fetchOptions = Responds 503 txt1 ->
     transport (S (fetchCount w)) url fetchOptions = Responds 503 txt2 ->
     transport (S (S (fetchCount w))) url fetchOptions = Responds st txt ->
     200 <= st <= 299 ->
     (txt = "" /\ result = JObject []) \/ (txt <> "" /\ JSON_parse txt = Returned result) ->
     makeRequest url options 1 w
     = (Returned result,
        w ++ [ EvFetch url fetchOptions; EvDelay (retryDelay (config this) * 1);
               EvFetch url fetchOptions; EvDelay (retryDelay (config this) * 2);
               EvFetch url fetchOptions ]))
  /\
  (retries (config this) = 3 ->
   forall txts : nat -> string,
     (forall n, transport n url fetchOptions = Responds 503 (txts n)) ->
     exists message,
       makeRequest url options 1 w
       = (Thrown (newError message),
          w ++ [ EvFetch url fetchOptions; EvDelay (retryDelay (config this) * 1);
                 EvFetch url fetchOptions; EvDelay (retryDelay (config this) * 2);
                 EvFetch url fetchOptions ])
       /\ includes message "503" = true).
Proof.
  cbv zeta.
  assert (H503 : forall txt, isRetryableError (upstreamError 503 txt) = true).
  { intros txt. rewrite isRetryableError_upstream.
    change (includes (numberToString 503) "503") with true.
    now rewrite orb_true_l, orb_true_r. }
  split; [| split].
  - intros attempt error w1 Htry Hre.
    rewrite makeRequest_source, Htry, Hre, andb_true_r. reflexivity.
  - intros H3 txt1 txt2 txt st result Ht1 Ht2 Ht3 Hst Hparse.
    rewrite (makeRequest_retries _ _ _ _ _ _ _ _ (upstreamError 503 txt1));
      [| rewrite Ht1; reflexivity | lia | apply H503].
    rewrite (makeRequest_retries _ _ _ _ _ _ _ _ (upstreamError 503 txt2));
      [| rewrite fetchCount_after_wait, Ht2; reflexivity | lia | apply H503].
    rewrite (makeRequest_returns _ _ _ _ _ _ _ _ result).
    + now rewrite <- !app_assoc.
    + rewrite !fetchCount_after_wait, Ht3. unfold settled, ok. cbn [status responseText].
      replace ((200 <=? st) && (st <=? 299)) with true by (symmetry; apply andb_true_iff; lia).
      cbn [negb].
      destruct Hparse as [[-> ->] | [Hne Hp]]; [reflexivity |].
      destruct txt; [congruence | exact Hp].
  - intros H3 txts Hall.
    exists ("Yandex Webmaster error " +:+ numberToString 503 +:+ ": "
            +:+ txts (S (S (fetchCount w)))).
    split.
    + rewrite (makeRequest_retries _ _ _ _ _ _ _ _ (upstreamError 503 (txts (fetchCount w))));
        [| rewrite Hall; reflexivity | lia | apply H503].
      rewrite (makeRequest_retries _ _ _ _ _ _ _ _
                 (upstreamError 503 (txts (S (fetchCount w)))));
        [| rewrite fetchCount_after_wait, Hall; reflexivity | lia | apply H503].
      rewrite (makeRequest_propagates _ _ _ _ _ _ _ _
                 (upstreamError 503 (txts (S (S (fetchCount w)))))).
      * now rewrite <- !app_assoc.
      * rewrite !fetchCount_after_wait, Hall. reflexivity.
      * replace (1 + 1 + 1 <? retries (config this)) with false
          by (symmetry; apply Z.ltb_ge; lia).
        reflexivity.
    + apply upstream_message_shows_status.
Qed.

(** The default client against [failingTwice] and against
    [alwaysUnavailable]. *)
Lemma retry_waits_linearly_up_to_ceiling_witness :
  let fetchOptions := fetchOptionsFor sampleStringify defaultClient noOptions in
  let url := API_BASE +:+ "/user" in
  makeRequest sampleParse sampleStringify failingTwice defaultClient url noOptions 1 []
  = (Returned (JArray [JNumber 1]),
     [ EvFetch url fetchOptions; EvDelay 1000;
       EvFetch url fetchOptions; EvDelay 2000;
       EvFetch url fetchOptions ])
  /\
  exists message,
    makeRequest sampleParse sampleStringify alwaysUnavailable defaultClient url noOptions 1 []
    = (Thrown (newError message),
       [ EvFetch url fetchOptions; EvDelay 1000;
         EvFetch url fetchOptions; EvDelay 2000;
         EvFetch url fetchOptions ])
    /\ includes message "503" = true.
Proof.
  cbv zeta. split.
  - apply (proj1 (proj2 (retry_waits_linearly_up_to_ceiling
                           sampleParse sampleStringify failingTwice defaultClient
                           (API_BASE +:+ "/user") noOptions [])) eq_refl
                 "Service Unavailable" "Service Unavailable" "[1]" 200 (JArray [JNumber 1])).
    + reflexivity.
    + reflexivity.
    + reflexivity.
    + lia.
    + right. split; [discriminate | reflexivity].
  - apply (proj2 (proj2 (retry_waits_linearly_up_to_ceiling
                           sampleParse sampleStringify alwaysUnavailable defaultClient
                           (API_BASE +:+ "/user") noOptions [])) eq_refl
                 (fun _ => "Service Unavailable")).
    intros n. reflexivity.
Defined.

(** *** The ceiling as a number *)

Section NumberCeiling.

Variable JSON_parse : string -> Outcome Json.
Variable JSON_stringify : Object -> string.
Variable transport : Transport.
Variable this : YandexWebmasterClient.

Local Abbreviation makeRequestFor := (makeRequestFor JSON_parse JSON_stringify transport this).
Local Abbreviation fetchOptionsFor := (fetchOptionsFor JSON_stringify this).
Local Abbreviation settled := (settled JSON_parse).
Local Abbreviation attemptsLog := (attemptsLog JSON_stringify this).

(** Below a finite ceiling is below the least integer that is not less. *)
Lemma below_finite (attempt : Z) (q : Q) :
  below attempt (Finite q) = (attempt <? Qceiling q).
Proof.
  unfold below. destruct (Z.ltb_spec attempt (Qceiling q)) as [Hlt | Hge].
  - apply negb_true_iff. destruct (Qle_bool q (inject_Z attempt)) eqn:Hle; [| reflexivity].
    apply Qle_bool_iff, Qceiling_resp_le in Hle. rewrite Qceiling_Z in Hle. lia.
  - apply negb_false_iff, Qle_bool_iff.
    apply Qle_trans with (inject_Z (Qceiling q)); [apply Qle_ceiling |].
    now rewrite <- Zle_Qle.
Qed.

Lemma makeRequestFor_step (ceiling : Number) (fuel : nat) (url : string)
      (options : RequestOptions) (attempt : Z) (w : World) :
  makeRequestFor ceiling (S fuel) url options attempt w
  = match settled (transport (fetchCount w) url (fetchOptionsFor options)) with
    | Returned result => Some (Returned result, w ++ [EvFetch url (fetchOptionsFor options)])
    | Thrown error =>
        if below attempt ceiling && isRetryableError error
        then makeRequestFor ceiling fuel url options (attempt + 1)
               (w ++ [EvFetch url (fetchOptionsFor options);
                      EvDelay (retryDelay (config this) * attempt)])
        else Some (Thrown error, w ++ [EvFetch url (fetchOptionsFor options)])
    end.
Proof.
  simpl. rewrite makeRequest_try_spec.
  destruct (settled _) as [result | error]; [reflexivity |].
  destruct (below attempt ceiling && isRetryableError error); [| reflexivity].
  now rewrite <- app_assoc.
Qed.

(** With a finite ceiling the call settles at one definite physical attempt:
    not before, and with the same outcome ever after. *)
Lemma makeRequestFor_finite (q : Q) (url : string) (options : RequestOptions) (n : nat) :
  forall (attempt : Z) (w : World),
    (Z.to_nat (Qceiling q - attempt) <= n)%nat ->
    exists (retried : nat) (outcome : Outcome Json),
      (retried = 0%nat \/ attempt + Z.of_nat retried <= Qceiling q)
      /\ forall fuel,
          makeRequestFor (Finite q) fuel url options attempt w
          = if (retried <? fuel)%nat
            then Some (outcome, w ++ attemptsLog url options attempt retried)
            else None.
Proof.
  induction n as [| n IH]; intros attempt w Hn.
  - exists 0%nat,
      (settled (transport (fetchCount w) url (fetchOptionsFor options))).
    split; [now left |]. intros [| fuel]; [reflexivity |].
    rewrite makeRequestFor_step, below_finite.
    replace (attempt <? Qceiling q) with false by (symmetry; apply Z.ltb_ge; lia).
    destruct (settled _); reflexivity.
  - destruct (settled (transport (fetchCount w) url (fetchOptionsFor options)))
      as [result | error] eqn:Hsettled.
    + exists 0%nat, (Returned result). split; [now left |].
      intros [| fuel]; [reflexivity |]. now rewrite makeRequestFor_step, Hsettled.
    + destruct (below attempt (Finite q) && isRetryableError error) eqn:Hretry.
      * assert (Hlt : attempt < Qceiling q).
        { apply andb_true_iff in Hretry as [Hb _]. rewrite below_finite in Hb.
          now apply Z.ltb_lt. }
        destruct (IH (attempt + 1)
                    (w ++ [EvFetch url (fetchOptionsFor options);
                           EvDelay (retryDelay (config this) * attempt)]))
          as (k & outcome & Hbound & Hrun); [lia |].
        exists (S k), outcome. split; [right; destruct Hbound as [-> | Hk]; lia |].
        intros [| fuel]; [reflexivity |].
        rewrite makeRequestFor_step, Hsettled, Hretry, Hrun.
        change (S k <? S fuel)%nat with (k <? fuel)%nat.
        destruct (k <? fuel)%nat; [| reflexivity].
        cbn [attemptsLog]. now rewrite <- app_assoc.
      * exists 0%nat, (Thrown error). split; [now left |].
        intros [| fuel]; [reflexivity |]. now rewrite makeRequestFor_step, Hsettled, Hretry.
Qed.

(** Without a ceiling, a transport that keeps failing retryably is asked
    again and again: the call has not settled after any number of attempts. *)
Lemma makeRequestFor_unbounded (url : string) (options : RequestOptions) :
  (forall i, exists e,
        settled (transport i url (fetchOptionsFor options)) = Thrown e
        /\ isRetryableError e = true) ->
  forall (fuel : nat) (attempt : Z) (w : World),
    makeRequestFor PlusInfinity fuel url options attempt w = None.
Proof.
  intros Hall. induction fuel as [| fuel IH]; intros attempt w; [reflexivity |].
  rewrite makeRequestFor_step.
  destruct (Hall (fetchCount w)) as (e & -> & ->). cbn [below andb]. apply IH.
Qed.

(** For an integer ceiling the call followed long enough is [makeRequest]. *)
Lemma makeRequestFor_integer (z : Z) (url : string) (options : RequestOptions) (fuel : nat) :
  forall (attempt : Z) (w : World),
    (Z.to_nat (z - attempt) < fuel)%nat ->
    makeRequestFor (Finite (inject_Z z)) fuel url options attempt w
    = Some (makeRequest JSON_parse JSON_stringify transport (withRetries this z)
              url options attempt w).
Proof.
  induction fuel as [| fuel IH]; intros attempt w Hfuel; [lia |].
  rewrite makeRequestFor_step, below_finite, Qceiling_Z.
  rewrite (makeRequest_source JSON_parse JSON_stringify transport (withRetries this z)).
  change (makeRequest_try JSON_parse JSON_stringify transport (withRetries this z) url options w)
    with (makeRequest_try JSON_parse JSON_stringify transport this url options w).
  rewrite makeRequest_try_spec.
  destruct (settled _) as [result | error]; [reflexivity |].
  change (retries (config (withRetries this z))) with z.
  change (retryDelay (config (withRetries this z))) with (retryDelay (config this)).
  destruct (attempt <? z) eqn:Hlt; cbn [andb]; [| reflexivity].
  destruct (isRetryableError error); [| reflexivity].
  rewrite <- app_assoc. apply IH. apply Z.ltb_lt in Hlt. lia.
Qed.

(** Under a finite ceiling a failure that persists is met at every attempt
    up to the last one the ceiling allows. *)
Lemma makeRequestFor_persistent (q : Q) (url : string) (options : RequestOptions) :
  (forall i, exists e,
        settled (transport i url (fetchOptionsFor options)) = Thrown e
        /\ isRetryableError e = true) ->
  forall (n : nat) (attempt : Z) (w : World),
    Z.to_nat (Qceiling q - attempt) = n ->
    exists e,
      settled (transport (fetchCount w + n)%nat url (fetchOptionsFor options)) = Thrown e
      /\ forall fuel,
          makeRequestFor (Finite q) fuel url options attempt w
          = if (n <? fuel)%nat
            then Some (Thrown e, w ++ attemptsLog url options attempt n)
            else None.
Proof.
  intros Hall. induction n as [| n IH]; intros attempt w Hn.
  - destruct (Hall (fetchCount w)) as (e & He & Hre). exists e.
    rewrite Nat.add_0_r. split; [exact He |].
    intros [| fuel]; [reflexivity |].
    rewrite makeRequestFor_step, He, below_finite.
    replace (attempt <? Qceiling q) with false by (symmetry; apply Z.ltb_ge; lia).
    reflexivity.
  - destruct (IH (attempt + 1)
                (w ++ [EvFetch url (fetchOptionsFor options);
                       EvDelay (retryDelay (config this) * attempt)]))
      as (e & He & Hrun); [lia |].
    rewrite fetchCount_after_wait in He.
    replace (S (fetchCount w) + n)%nat with (fetchCount w + S n)%nat in He by lia.
    exists e. split; [exact He |].
    intros [| fuel]; [reflexivity |].
    destruct (Hall (fetchCount w)) as (e0 & He0 & Hre0).
    rewrite makeRequestFor_step, He0, Hre0, below_finite.
    replace (attempt <? Qceiling q) with true by (symmetry; apply Z.ltb_lt; lia).
    cbn [andb]. rewrite Hrun.
    change (S n <? S fuel)%nat with (n <? fuel)%nat.
    destruct (n <? fuel)%nat; [| reflexivity].
    cbn [attemptsLog]. now rewrite <- app_assoc.
Qed.

End NumberCeiling.

Example fractional_ceiling_is_rounded_up :
  exists error,
    makeRequestFor sampleParse sampleStringify alwaysUnavailable defaultClient
      (Finite (5 # 2)) 10 (API_BASE +:+ "/user") noOptions 1 []
    = Some (Thrown error,
            attemptsLog sampleStringify defaultClient (API_BASE +:+ "/user") noOptions 1 2).
Proof. eexists. vm_compute. reflexivity. Qed.




(** C5 as stated fails: a response 404 whose body mentions one of the three
    markers is classified retryable, and the default client makes three
    physical attempts instead of one. *)
Lemma not_found_is_retried_when_body_has_marker :
  ~ (forall (JSON_parse : string -> Outcome Json) (JSON_stringify : Object -> string)
            (transport : Transport) (this : YandexWebmasterClient)
            (url : string) (options : RequestOptions) (w : World) (txt : string),
        transport (fetchCount w) url (fetchOptionsFor JSON_stringify this options)
        = Responds 404 txt ->
        exists message,
          makeRequest JSON_parse JSON_stringify transport this url options 1 w
          = (Thrown (newError message),
             w ++ [EvFetch url (fetchOptionsFor JSON_stringify this options)])
          /\ includes message "404" = true).
Proof.
  intros Hclaim.
  destruct (Hclaim sampleParse sampleStringify notFoundMentioning503 defaultClient
              (API_BASE +:+ "/user") noOptions [] "task 503 not found" eq_refl)
    as (message & Hrun & _).
  vm_compute in Hrun. discriminate Hrun.
Qed.

(** C5, amended. When the first attempt meets a response 404, or any
    three-digit status outside 2xx other than 500, 502 and 503, and the body
    text contains none of "500", "502", "503", the client fails at once:
    exactly one physical attempt, no wait, and the error's message contains
    the status (so "404" for a 404). *)
Theorem unmarked_status_fails_at_once
  (JSON_parse : string -> Outcome Json) (JSON_stringify : Object -> string)
  (transport : Transport) (this : YandexWebmasterClient)
  (url : string) (options : RequestOptions) (w : World) (st : Z) (txt : string) :
  transport (fetchCount w) url (fetchOptionsFor JSON_stringify this options)
  = Responds st txt ->
  100 <= st <= 599 -> ~ (200 <= st <= 299) ->
  st <> 500 -> st <> 502 -> st <> 503 ->
  includes txt "500" = false -> includes txt "502" = false -> includes txt "503" = false ->
  exists (message : string) (w' : World),
    makeRequest JSON_parse JSON_stringify transport this url options 1 w
    = (Thrown (newError message), w')
    /\ w' = w ++ [EvFetch url (fetchOptionsFor JSON_stringify this options)]
    /\ fetchCount w' = S (fetchCount w)
    /\ delaysOf w' = delaysOf w
    /\ includes message (numberToString st) = true.
Proof.
  intros Hresp Hrange Hnot2xx H500 H502 H503 Hb0 Hb2 Hb3.
  exists ("Yandex Webmaster error " +:+ numberToString st +:+ ": " +:+ txt).
  eexists. split; [| split; [reflexivity | split; [| split]]].
  - apply makeRequest_propagates.
    + rewrite Hresp. unfold settled, ok. cbn [status responseText].
      replace ((200 <=? st) && (st <=? 299)) with false; [reflexivity |].
      symmetry. apply andb_false_iff.
      destruct (Z.leb_spec 200 st); [right; apply Z.leb_gt; lia | now left].
    + change (newError _) with (upstreamError st txt).
      rewrite isRetryableError_upstream, Hb0, Hb2, Hb3.
      destruct (status_markers st Hrange) as (-> & -> & ->).
      replace (st =? 500) with false by (symmetry; apply Z.eqb_neq; assumption).
      replace (st =? 502) with false by (symmetry; apply Z.eqb_neq; assumption).
      replace (st =? 503) with false by (symmetry; apply Z.eqb_neq; assumption).
      apply andb_false_r.
  - rewrite fetchCount_app. cbn. lia.
  - unfold delaysOf. rewrite omap_app. cbn. apply app_nil_r.
  - apply upstream_message_shows_status.
Qed.

(** The default client against [notFound]. *)
Lemma unmarked_status_fails_at_once_witness :
  exists (message : string) (w' : World),
    makeRequest sampleParse sampleStringify notFound defaultClient
      (API_BASE +:+ "/user") noOptions 1 []
    = (Thrown (newError message), w')
    /\ w' = [EvFetch (API_BASE +:+ "/user")
               (fetchOptionsFor sampleStringify defaultClient noOptions)]
    /\ fetchCount w' = 1%nat
    /\ delaysOf w' = []
    /\ includes message "404" = true.
Proof.
  apply (unmarked_status_fails_at_once sampleParse sampleStringify notFound defaultClient
           (API_BASE +:+ "/user") noOptions [] 404 "host not found").
  - reflexivity.
  - lia.
  - lia.
  - discriminate.
  - discriminate.
  - discriminate.
  - reflexivity.
  - reflexivity.
  - reflexivity.
Defined.

(** C6. Whether an upstream error is retried is read off its message text:
    it is retryable exactly when the text, status and body together,
    contains "500", "502" or "503", so two responses with the same status
    can be classified differently. In particular there is a body mentioning
    "503" with which a response 404 is classified retryable, and every
    client whose ceiling is above 1 then waits and makes a second physical
    attempt. *)
Theorem retry_classification_reads_message_text :
  (forall (st : Z) (txt : string),
      let message := "Yandex Webmaster error " +:+ numberToString st +:+ ": " +:+ txt in
      isRetryableError (upstreamError st txt)
      = includes message "500" || includes message "502" || includes message "503")
  /\
  (exists txt1 txt2,
      isRetryableError (upstreamError 404 txt1) <> isRetryableError (upstreamError 404 txt2))
  /\
  (exists txt,
      includes txt "503" = true /\
      isRetryableError (upstreamError 404 txt) = true /\
      forall (JSON_parse : string -> Outcome Json) (JSON_stringify : Object -> string)
             (transport : Transport) (this : YandexWebmasterClient)
             (url : string) (options : RequestOptions) (w : World),
        1 < retries (config this) ->
        transport (fetchCount w) url (fetchOptionsFor JSON_stringify this options)
        = Responds 404 txt ->
        exists (retried : nat) (outcome : Outcome Json) (w' : World),
          makeRequest JSON_parse JSON_stringify transport this url options 1 w = (outcome, w')
          /\ w' = w ++ attemptsLog JSON_stringify this url options 1 (S retried)
          /\ fetchCount w' = (fetchCount w + (retried + 2))%nat).
Proof.
  split; [| split].
  - intros st txt. reflexivity.
  - exists "task 503 not found", "host not found". vm_compute. discriminate.
  - exists "task 503 not found". split; [reflexivity | split; [reflexivity |]].
    intros JSON_parse JSON_stringify transport this url options w Hceil Hresp.
    destruct (makeRequest_log JSON_parse JSON_stringify transport this url options
                (Z.to_nat (retries (config this) - 2)) (1 + 1)
                (w ++ [EvFetch url (fetchOptionsFor JSON_stringify this options);
                       EvDelay (retryDelay (config this) * 1)]))
      as (retried & outcome & Hrun & _); [lia |].
    exists retried, outcome. eexists. split; [| split; [reflexivity |]].
    + rewrite (makeRequest_retries _ _ _ _ _ _ _ _ (upstreamError 404 "task 503 not found"));
        [| rewrite Hresp; reflexivity | lia | reflexivity].
      rewrite Hrun. f_equal. cbn [attemptsLog]. now rewrite <- app_assoc.
    + rewrite fetchCount_app, fetchCount_attemptsLog. lia.
Qed.

(** The default client against [notFoundMentioning503]: three physical
    attempts with the waits of 1000 and 2000 milliseconds between them. *)
Lemma retry_classification_reads_message_text_witness :
  exists txt,
    includes txt "503" = true /\
    exists (retried : nat) (outcome : Outcome Json) (w' : World),
      makeRequest sampleParse sampleStringify (fun _ _ _ => Responds 404 txt) defaultClient
        (API_BASE +:+ "/user") noOptions 1 []
      = (outcome, w')
      /\ w' = attemptsLog sampleStringify defaultClient (API_BASE +:+ "/user") noOptions 1
                (S retried)
      /\ fetchCount w' = (retried + 2)%nat.
Proof.
  destruct retry_classification_reads_message_text as (_ & _ & txt & Hin & _ & Hretry).
  exists txt. split; [exact Hin |].
  apply (Hretry sampleParse sampleStringify (fun _ _ _ => Responds 404 txt) defaultClient
           (API_BASE +:+ "/user") noOptions []).
  - reflexivity.
  - reflexivity.
Defined.

(** ** Required-field validation *)

Section Validation.

Lemma trimStart_whitespaceOnly (s : string) :
  whitespaceOnly s = true -> trimStart s = EmptyString.
Proof.
  induction s as [| c s IH]; [reflexivity |].
  cbn [whitespaceOnly trimStart]. intros Hws.
  apply andb_true_iff in Hws as [Hc Hs]. rewrite Hc. auto.
Qed.

Lemma missingOrBlank_rejected (v : Value) : missingOrBlank v = true -> rejected v = true.
Proof.
  destruct v as [| | b | n | s | name message |]; try discriminate; try reflexivity.
  cbn [missingOrBlank]. intros Hws. unfold rejected, trim.
  rewrite (trimStart_whitespaceOnly s Hws). cbn. apply orb_true_r.
Qed.

(** The first of the listed fields that the check rejects, if any. *)
Lemma validateRequired_find (params : Object) (fields : list (string * Value)) (w : World) :
  (forall fv, In fv fields -> get params (fst fv) = snd fv) ->
  validateRequired params (map fst fields) w
  = match List.find (fun fv => rejected (snd fv)) fields with
    | Some fv => (Thrown (newError (fst fv +:+ " is required and must be non-empty")), w)
    | None => (Returned tt, w)
    end.
Proof.
  induction fields as [| [f v] fields IH]; intros Hget; [reflexivity |].
  cbn [map fst validateRequired List.find snd].
  pose proof (Hget (f, v) (or_introl eq_refl)) as Hf. cbn [fst snd] in Hf. rewrite Hf.
  destruct (rejected v); [reflexivity |].
  apply IH. intros fv Hin. apply Hget. now right.
Qed.

Lemma find_first_rejected (before after : list (string * Value)) (f : string) (v : Value) :
  Forall (fun fv => rejected (snd fv) = false) before ->
  rejected v = true ->
  List.find (fun fv => rejected (snd fv)) (before ++ (f, v) :: after) = Some (f, v).
Proof.
  intros Hbefore Hv. induction Hbefore as [| fv before Hfv _ IH]; cbn.
  - now rewrite Hv.
  - now rewrite Hfv.
Qed.

Variable JSON_parse : string -> Outcome Json.
Variable JSON_stringify : Object -> string.
Variable transport : Transport.
Variable this : YandexWebmasterClient.

Local Abbreviation perform := (perform JSON_parse JSON_stringify transport this).

(** Every operation begins by validating exactly its required parameters,
    under their declared names and in their declared order. *)
Lemma perform_validates_first (c : Call) :
  exists (params : Object) (rest : M Json),
    (forall w, perform c w = (validateRequired params (map fst (requiredFields c));; rest) w)
    /\ forall fv, In fv (requiredFields c) -> get params (fst fv) = snd fv.
Proof.
  destruct c; [exists ∅ | eexists ..]; eexists; (split; [intros w; reflexivity |]);
    intros fv Hin; cbn in Hin; intuition (subst; reflexivity).
Qed.

Lemma perform_rejects (c : Call) (w : World) (f : string) (v : Value) :
  List.find (fun fv => rejected (snd fv)) (requiredFields c) = Some (f, v) ->
  perform c w = (Thrown (newError (f +:+ " is required and must be non-empty")), w).
Proof.
  intros Hfind. destruct (perform_validates_first c) as (params & rest & Hshape & Hget).
  rewrite Hshape. unfold mbind, M_bind.
  now rewrite (validateRequired_find params _ w Hget), Hfind.
Qed.

End Validation.

(** C4 as stated fails when two required parameters are missing: the error
    names the first one only. [getHostInfo(undefined, undefined)] fails with
    "userId is required and must be non-empty", which does not name the
    missing [hostId]. *)
Lemma second_missing_field_is_not_named :
  ~ (forall (JSON_parse : string -> Outcome Json) (JSON_stringify : Object -> string)
            (transport : Transport) (this : YandexWebmasterClient)
            (c : Call) (w : World) (f : string) (v : Value),
        In (f, v) (requiredFields c) ->
        missingOrBlank v = true ->
        exists message,
          perform JSON_parse JSON_stringify transport this c w
          = (Thrown (newError message), w)
          /\ includes message f = true).
Proof.
  intros Hclaim.
  destruct (Hclaim sampleParse sampleStringify notFound defaultClient
              (GetHostInfo VUndefined VUndefined) [] "hostId" VUndefined
              (or_intror (or_introl eq_refl)) eq_refl)
    as (message & Hrun & Hnamed).
  vm_compute in Hrun. injection Hrun as <-.
  vm_compute in Hnamed. discriminate Hnamed.
Qed.

(** C4, amended. A call of any operation in which some required parameter
    is missing, [null], [undefined] or a string of white space only fails
    immediately: the state is untouched (no HTTP request, no wait, hence no
    retry), and the error's message names the first required parameter, in
    the order of the signature, that the check rejects. That is the
    parameter in question whenever none before it is rejected. *)
Theorem missing_required_field_fails_before_any_request
  (JSON_parse : string -> Outcome Json) (JSON_stringify : Object -> string)
  (transport : Transport) (this : YandexWebmasterClient)
  (c : Call) (w : World) (f : string) (v : Value) :
  In (f, v) (requiredFields c) ->
  missingOrBlank v = true ->
  exists (f0 : string) (v0 : Value),
    List.find (fun fv => rejected (snd fv)) (requiredFields c) = Some (f0, v0)
    /\ perform JSON_parse JSON_stringify transport this c w
       = (Thrown (newError (f0 +:+ " is required and must be non-empty")), w)
    /\ includes (f0 +:+ " is required and must be non-empty") f0 = true
    /\ (forall before after,
           requiredFields c = before ++ (f, v) :: after ->
           Forall (fun fv => rejected (snd fv) = false) before ->
           f0 = f).
Proof.
  intros Hin Hblank.
  destruct (List.find (fun fv => rejected (snd fv)) (requiredFields c))
    as [[f0 v0] |] eqn:Hfind.
  - exists f0, v0. split; [reflexivity | split; [| split]].
    + now apply perform_rejects with (v := v0).
    + apply includes_prefix, prefix_app_l.
    + intros before after Hsplit Hbefore.
      rewrite Hsplit, (find_first_rejected before after f v Hbefore
                         (missingOrBlank_rejected v Hblank)) in Hfind.
      congruence.
  - apply (find_none _ _ Hfind) in Hin. cbn in Hin.
    rewrite (missingOrBlank_rejected v Hblank) in Hin. discriminate.
Qed.

(** [getHostInfo("12345", "   ")]: the blank [hostId] is named, and nothing
    is sent. *)
Lemma missing_required_field_fails_before_any_request_witness :
  exists (f0 : string) (v0 : Value),
    List.find (fun fv => rejected (snd fv))
      (requiredFields (GetHostInfo (VStr "12345") (VStr "   "))) = Some (f0, v0)
    /\ perform sampleParse sampleStringify notFound defaultClient
         (GetHostInfo (VStr "12345") (VStr "   ")) []
       = (Thrown (newError (f0 +:+ " is required and must be non-empty")), [])
    /\ includes (f0 +:+ " is required and must be non-empty") f0 = true
    /\ (forall before after,
           requiredFields (GetHostInfo (VStr "12345") (VStr "   "))
           = before ++ ("hostId", VStr "   ") :: after ->
           Forall (fun fv => rejected (snd fv) = false) before ->
           f0 = "hostId").
Proof.
  apply (missing_required_field_fails_before_any_request
           sampleParse sampleStringify notFound defaultClient
           (GetHostInfo (VStr "12345") (VStr "   ")) [] "hostId" (VStr "   ")).
  - right. left. reflexivity.
  - reflexivity.
Defined.

(** ** Request URLs *)

Section Urls.

Variable JSON_parse : string -> Outcome Json.
Variable JSON_stringify : Object -> string.
Variable transport : Transport.
Variable this : YandexWebmasterClient.

Local Abbreviation makeRequest := (makeRequest JSON_parse JSON_stringify transport this).
Local Abbreviation getPopularQueries :=
  (getPopularQueries JSON_parse JSON_stringify transport this).

(** Once its five required parameters pass the check, [getPopularQueries] is
    the request for the URL it built. *)
Lemma getPopularQueries_accepted (userId hostId : Value) (params : SearchQueriesParams)
      (w : World) :
  rejected userId = false -> rejected hostId = false ->
  rejected (sq_dateFrom params) = false -> rejected (sq_dateTo params) = false ->
  rejected (orderBy params) = false ->
  getPopularQueries userId hostId params w
  = makeRequest
      (hostUrl userId hostId
         ("/search-queries/popular?" +:+ URLSearchParams.toString (popularQueryParams params)))
      noOptions 1 w.
Proof.
  intros Hu Hh Hf Ht Ho. unfold getPopularQueries, mbind, M_bind.
  rewrite (validateRequired_find _
             [ ("userId", userId); ("hostId", hostId); ("dateFrom", sq_dateFrom params);
               ("dateTo", sq_dateTo params); ("orderBy", orderBy params) ] w).
  - cbn [List.find snd]. now rewrite Hu, Hh, Hf, Ht, Ho.
  - intros fv Hin. cbn in Hin. intuition (subst; reflexivity).
Qed.

Local Ltac accepted fields :=
  intros; unfold mbind, M_bind;
  rewrite (validateRequired_find _ fields);
  [ cbn [List.find snd];
    repeat match goal with H : rejected _ = false |- _ => rewrite H; clear H end;
    reflexivity
  | intros fv Hin; cbn in Hin; intuition (subst; reflexivity) ].

(** Once the user and the host pass the check, each paging operation is the
    request for its path followed by what [pageQueryParams] makes of [limit]
    and [offset]. *)
Lemma getIndexingSamples_accepted (userId hostId limit offset : Value) (w : World) :
  rejected userId = false -> rejected hostId = false ->
  getIndexingSamples JSON_parse JSON_stringify transport this userId hostId limit offset w
  = makeRequest
      (hostUrl userId hostId
         (withQueryString "/indexing/samples"
            (URLSearchParams.toString (pageQueryParams limit offset))))
      noOptions 1 w.
Proof. unfold getIndexingSamples. accepted [ ("userId", userId); ("hostId", hostId) ]. Qed.

Lemma getRecrawlTasks_accepted (userId hostId limit offset : Value) (w : World) :
  rejected userId = false -> rejected hostId = false ->
  getRecrawlTasks JSON_parse JSON_stringify transport this userId hostId limit offset w
  = makeRequest
      (hostUrl userId hostId
         (withQueryString "/recrawl/tasks"
            (URLSearchParams.toString (pageQueryParams limit offset))))
      noOptions 1 w.
Proof. unfold getRecrawlTasks. accepted [ ("userId", userId); ("hostId", hostId) ]. Qed.

Lemma getInternalLinks_accepted (userId hostId limit offset : Value) (w : World) :
  rejected userId = false -> rejected hostId = false ->
  getInternalLinks JSON_parse JSON_stringify transport this userId hostId limit offset w
  = makeRequest
      (hostUrl userId hostId
         (withQueryString "/links/internal/samples"
            (URLSearchParams.toString (pageQueryParams limit offset))))
      noOptions 1 w.
Proof. unfold getInternalLinks. accepted [ ("userId", userId); ("hostId", hostId) ]. Qed.

Lemma getExternalLinks_accepted (userId hostId limit offset : Value) (w : World) :
  rejected userId = false -> rejected hostId = false ->
  getExternalLinks JSON_parse JSON_stringify transport this userId hostId limit offset w
  = makeRequest
      (hostUrl userId hostId
         (withQueryString "/links/external/samples"
            (URLSearchParams.toString (pageQueryParams limit offset))))
      noOptions 1 w.
Proof. unfold getExternalLinks. accepted [ ("userId", userId); ("hostId", hostId) ]. Qed.

(** Once its five required parameters pass the check,
    [getSingleQueryHistory] is the request for the URL it built. *)
Lemma getSingleQueryHistory_accepted (userId hostId queryText : Value)
      (params : DateRangeParams) (w : World) :
  rejected userId = false -> rejected hostId = false -> rejected queryText = false ->
  rejected (dateFrom params) = false -> rejected (dateTo params) = false ->
  getSingleQueryHistory JSON_parse JSON_stringify transport this userId hostId queryText params w
  = makeRequest
      (hostUrl userId hostId
         ("/search-queries/history?"
          +:+ URLSearchParams.toString
                (URLSearchParams.ofRecord
                   [ ("query_text", queryText); ("date_from", dateFrom params);
                     ("date_to", dateTo params) ])))
      noOptions 1 w.
Proof.
  unfold getSingleQueryHistory.
  accepted [ ("userId", userId); ("hostId", hostId); ("queryText", queryText);
             ("dateFrom", dateFrom params); ("dateTo", dateTo params) ].
Qed.

(** What is left of the paging query when one of the two is 0. *)
Lemma withQueryString_one (path key : string) (other : Value) :
  withQueryString path
    (URLSearchParams.toString (if truthy other then [(key, String_ other)] else []))
  = path +:+ (if truthy other
              then "?" +:+ URLSearchParams.encode key +:+ "="
                   +:+ URLSearchParams.encode (String_ other)
              else "").
Proof.
  unfold withQueryString. destruct (truthy other); [| reflexivity].
  cbn [URLSearchParams.toString truthy].
  destruct (URLSearchParams.encode key) as [| c rest]; reflexivity.
Qed.

Lemma pageQueryParams_zero (other : Value) :
  pageQueryParams (VNum 0) other = (if truthy other then [("offset", String_ other)] else [])
  /\ pageQueryParams other (VNum 0) = (if truthy other then [("limit", String_ other)] else []).
Proof. unfold pageQueryParams. cbn [truthy Z.eqb negb]. destruct (truthy other); now split. Qed.

End Urls.

(** C7. For popular queries from "2024-01-01" to "2024-01-31" ordered by
    "TOTAL_CLICKS", with no optional member supplied, the query string is
    exactly [date_from=2024-01-01&date_to=2024-01-31&order_by=TOTAL_CLICKS]:
    these three keys in this order and no [limit], [offset] or
    [query_indicator]; and it is the query of the URL the client requests
    for any user and host that pass the check. *)
Theorem popular_queries_query_string :
  let params :=
    {| sq_dateFrom := VStr "2024-01-01"; sq_dateTo := VStr "2024-01-31";
       queryIndicator := VUndefined; orderBy := VStr "TOTAL_CLICKS";
       limit := VUndefined; offset := VUndefined |} in
  let queryString := "date_from=2024-01-01&date_to=2024-01-31&order_by=TOTAL_CLICKS" in
  URLSearchParams.toString (popularQueryParams params) = queryString
  /\ popularQueryParams params
     = [ ("date_from", "2024-01-01"); ("date_to", "2024-01-31");
         ("order_by", "TOTAL_CLICKS") ]
  /\ includes queryString "limit" = false
  /\ includes queryString "offset" = false
  /\ includes queryString "query_indicator" = false
  /\ forall (JSON_parse : string -> Outcome Json) (JSON_stringify : Object -> string)
            (transport : Transport) (this : YandexWebmasterClient)
            (userId hostId : Value) (w : World),
      rejected userId = false -> rejected hostId = false ->
      getPopularQueries JSON_parse JSON_stringify transport this userId hostId params w
      = makeRequest JSON_parse JSON_stringify transport this
          (API_BASE +:+ "/user/" +:+ String_ userId +:+ "/hosts/" +:+ String_ hostId
           +:+ "/search-queries/popular?" +:+ queryString)
          noOptions 1 w.
Proof.
  cbv zeta. repeat split; try reflexivity.
  intros JSON_parse JSON_stringify transport this userId hostId w Hu Hh.
  now rewrite getPopularQueries_accepted.
Qed.

(** User "12345" and host "https:example.com:443": the first physical
    attempt goes to the URL with that query string. *)
Lemma popular_queries_query_string_witness :
  exists rest,
    snd (getPopularQueries sampleParse sampleStringify notFound defaultClient
           (VStr "12345") (VStr "https:example.com:443")
           {| sq_dateFrom := VStr "2024-01-01"; sq_dateTo := VStr "2024-01-31";
              queryIndicator := VUndefined; orderBy := VStr "TOTAL_CLICKS";
              limit := VUndefined; offset := VUndefined |} [])
    = EvFetch
        ("https://api.webmaster.yandex.net/v4/user/12345/hosts/https:example.com:443"
         +:+ "/search-queries/popular?date_from=2024-01-01&date_to=2024-01-31"
         +:+ "&order_by=TOTAL_CLICKS")
        (fetchOptionsFor sampleStringify defaultClient noOptions)
      :: rest.
Proof.
  destruct popular_queries_query_string as (_ & _ & _ & _ & _ & Hurl).
  rewrite (Hurl sampleParse sampleStringify notFound defaultClient
             (VStr "12345") (VStr "https:example.com:443") [] eq_refl eq_refl).
  eexists. vm_compute. reflexivity.
Defined.

(** C9. In the five operations that take [limit] and [offset], the value 0
    for either is dropped: the query carries no such key, and the call is
    the very call made without the parameter (same outcome, same log in
    every state), because each key is set only when its value is truthy.
    For a user and a host that pass the check, and no number beyond 2^53
    among the other values, the URL is given in full: with
    [limit] 0 each paging operation requests its path followed by
    [?offset=<offset>] alone, or by nothing when the offset is falsy as well,
    and likewise with [offset] 0; [getPopularQueries] requests its three
    required pairs, [query_indicator] when it is truthy, and of [limit] and
    [offset] only the other one. *)
Theorem zero_limit_or_offset_is_omitted
  (JSON_parse : string -> Outcome Json) (JSON_stringify : Object -> string)
  (transport : Transport) (this : YandexWebmasterClient)
  (userId hostId other : Value) (w : World) :
  let samples := getIndexingSamples JSON_parse JSON_stringify transport this userId hostId in
  let tasks := getRecrawlTasks JSON_parse JSON_stringify transport this userId hostId in
  let internal := getInternalLinks JSON_parse JSON_stringify transport this userId hostId in
  let external := getExternalLinks JSON_parse JSON_stringify transport this userId hostId in
  let popular := getPopularQueries JSON_parse JSON_stringify transport this userId hostId in
  let request path :=
    makeRequest JSON_parse JSON_stringify transport this (hostUrl userId hostId path)
      noOptions 1 w in
  let only (key : string) :=
    if truthy other then "?" +:+ key +:+ "=" +:+ URLSearchParams.encode (String_ other)
    else "" in
  (~ In "limit" (URLSearchParams.keys (pageQueryParams (VNum 0) other))
   /\ ~ In "offset" (URLSearchParams.keys (pageQueryParams other (VNum 0)))
   /\ pageQueryParams (VNum 0) other = pageQueryParams VUndefined other
   /\ pageQueryParams other (VNum 0) = pageQueryParams other VUndefined)
  /\ (samples (VNum 0) other w = samples VUndefined other w
      /\ samples other (VNum 0) w = samples other VUndefined w)
  /\ (tasks (VNum 0) other w = tasks VUndefined other w
      /\ tasks other (VNum 0) w = tasks other VUndefined w)
  /\ (internal (VNum 0) other w = internal VUndefined other w
      /\ internal other (VNum 0) w = internal other VUndefined w)
  /\ (external (VNum 0) other w = external VUndefined other w
      /\ external other (VNum 0) w = external other VUndefined w)
  /\ (forall since until indicator order : Value,
      let withLimit v :=
        {| sq_dateFrom := since; sq_dateTo := until; queryIndicator := indicator;
           orderBy := order; limit := v; offset := other |} in
      let withOffset v :=
        {| sq_dateFrom := since; sq_dateTo := until; queryIndicator := indicator;
           orderBy := order; limit := other; offset := v |} in
      ~ In "limit" (URLSearchParams.keys (popularQueryParams (withLimit (VNum 0))))
      /\ ~ In "offset" (URLSearchParams.keys (popularQueryParams (withOffset (VNum 0))))
      /\ popular (withLimit (VNum 0)) w = popular (withLimit VUndefined) w
      /\ popular (withOffset (VNum 0)) w = popular (withOffset VUndefined) w)
  /\ (rejected userId = false -> rejected hostId = false -> inSafeRange other = true ->
      (samples (VNum 0) other w = request ("/indexing/samples" +:+ only "offset")
       /\ samples other (VNum 0) w = request ("/indexing/samples" +:+ only "limit"))
      /\ (tasks (VNum 0) other w = request ("/recrawl/tasks" +:+ only "offset")
          /\ tasks other (VNum 0) w = request ("/recrawl/tasks" +:+ only "limit"))
      /\ (internal (VNum 0) other w = request ("/links/internal/samples" +:+ only "offset")
          /\ internal other (VNum 0) w = request ("/links/internal/samples" +:+ only "limit"))
      /\ (external (VNum 0) other w = request ("/links/external/samples" +:+ only "offset")
          /\ external other (VNum 0) w = request ("/links/external/samples" +:+ only "limit"))
      /\ forall since until indicator order : Value,
          rejected since = false -> rejected until = false -> rejected order = false ->
          inSafeRange since = true -> inSafeRange until = true ->
          inSafeRange order = true -> inSafeRange indicator = true ->
          let pairs (key : string) :=
            [ ("date_from", String_ since); ("date_to", String_ until);
              ("order_by", String_ order) ]
            ++ (if truthy indicator then [("query_indicator", String_ indicator)] else [])
            ++ (if truthy other then [(key, String_ other)] else []) in
          popular {| sq_dateFrom := since; sq_dateTo := until; queryIndicator := indicator;
                     orderBy := order; limit := VNum 0; offset := other |} w
          = request ("/search-queries/popular?" +:+ URLSearchParams.toString (pairs "offset"))
          /\ popular {| sq_dateFrom := since; sq_dateTo := until; queryIndicator := indicator;
                        orderBy := order; limit := other; offset := VNum 0 |} w
             = request ("/search-queries/popular?" +:+ URLSearchParams.toString (pairs "limit"))).
Proof.
  cbv zeta. split.
  { unfold pageQueryParams. cbn [truthy Z.eqb negb].
    repeat split; try reflexivity; destruct (truthy other); cbn; intuition discriminate. }
  do 4 (split; [split; reflexivity |]).
  split.
  { intros since until indicator order. repeat split; try reflexivity.
    all: unfold popularQueryParams; cbn [truthy Z.eqb negb queryIndicator limit offset].
    all: destruct (truthy indicator), (truthy other); cbn; intuition discriminate. }
  intros Hu Hh _.
  destruct (pageQueryParams_zero other) as [Hlimit Hoffset].
  pose proof (withQueryString_one "/indexing/samples" "offset" other) as Hs1.
  pose proof (withQueryString_one "/indexing/samples" "limit" other) as Hs2.
  pose proof (withQueryString_one "/recrawl/tasks" "offset" other) as Ht1.
  pose proof (withQueryString_one "/recrawl/tasks" "limit" other) as Ht2.
  pose proof (withQueryString_one "/links/internal/samples" "offset" other) as Hi1.
  pose proof (withQueryString_one "/links/internal/samples" "limit" other) as Hi2.
  pose proof (withQueryString_one "/links/external/samples" "offset" other) as He1.
  pose proof (withQueryString_one "/links/external/samples" "limit" other) as He2.
  change (URLSearchParams.encode "offset") with "offset"%string in *.
  change (URLSearchParams.encode "limit") with "limit"%string in *.
  rewrite !getIndexingSamples_accepted, !getRecrawlTasks_accepted,
    !getInternalLinks_accepted, !getExternalLinks_accepted by assumption.
  rewrite Hlimit, Hoffset, Hs1, Hs2, Ht1, Ht2, Hi1, Hi2, He1, He2.
  do 4 (split; [split; reflexivity |]).
  intros since until indicator order Hsince Huntil Horder _ _ _ _.
  rewrite !getPopularQueries_accepted by assumption.
  unfold popularQueryParams. cbn [truthy Z.eqb negb queryIndicator limit offset
                                    sq_dateFrom sq_dateTo orderBy].
  destruct (truthy indicator), (truthy other); split; reflexivity.
Qed.

(** User "12345" and host "https:example.com:443": with [limit] 0 and
    [offset] 20 the samples are requested with the offset alone, and so are
    the popular queries after their three required pairs; with [limit] 0 and
    no offset the tasks are requested with no query at all. *)
Lemma zero_limit_or_offset_is_omitted_witness :
  getIndexingSamples sampleParse sampleStringify notFound defaultClient
    (VStr "12345") (VStr "https:example.com:443") (VNum 0) (VNum 20) []
  = makeRequest sampleParse sampleStringify notFound defaultClient
      ("https://api.webmaster.yandex.net/v4/user/12345/hosts/https:example.com:443"
       +:+ "/indexing/samples?offset=20")
      noOptions 1 []
  /\ getPopularQueries sampleParse sampleStringify notFound defaultClient
       (VStr "12345") (VStr "https:example.com:443")
       {| sq_dateFrom := VStr "2024-01-01"; sq_dateTo := VStr "2024-01-31";
          queryIndicator := VUndefined; orderBy := VStr "TOTAL_CLICKS";
          limit := VNum 0; offset := VNum 20 |} []
     = makeRequest sampleParse sampleStringify notFound defaultClient
         ("https://api.webmaster.yandex.net/v4/user/12345/hosts/https:example.com:443"
          +:+ "/search-queries/popular?date_from=2024-01-01&date_to=2024-01-31"
          +:+ "&order_by=TOTAL_CLICKS&offset=20")
         noOptions 1 []
  /\ getRecrawlTasks sampleParse sampleStringify notFound defaultClient
       (VStr "12345") (VStr "https:example.com:443") (VNum 0) VUndefined []
     = makeRequest sampleParse sampleStringify notFound defaultClient
         ("https://api.webmaster.yandex.net/v4/user/12345/hosts/https:example.com:443"
          +:+ "/recrawl/tasks")
         noOptions 1 [].
Proof.
  split; [| split].
  - destruct (zero_limit_or_offset_is_omitted sampleParse sampleStringify notFound
                defaultClient (VStr "12345") (VStr "https:example.com:443") (VNum 20) [])
      as (_ & _ & _ & _ & _ & _ & Hurls).
    destruct (Hurls eq_refl eq_refl eq_refl) as ((Hsamples & _) & _). exact Hsamples.
  - destruct (zero_limit_or_offset_is_omitted sampleParse sampleStringify notFound
                defaultClient (VStr "12345") (VStr "https:example.com:443") (VNum 20) [])
      as (_ & _ & _ & _ & _ & _ & Hurls).
    destruct (Hurls eq_refl eq_refl eq_refl) as (_ & _ & _ & _ & Hpopular).
    destruct (Hpopular (VStr "2024-01-01") (VStr "2024-01-31") VUndefined (VStr "TOTAL_CLICKS")
                eq_refl eq_refl eq_refl eq_refl eq_refl eq_refl eq_refl)
      as [Hlimit _].
    exact Hlimit.
  - destruct (zero_limit_or_offset_is_omitted sampleParse sampleStringify notFound
                defaultClient (VStr "12345") (VStr "https:example.com:443") VUndefined [])
      as (_ & _ & _ & _ & _ & _ & Hurls).
    destruct (Hurls eq_refl eq_refl eq_refl) as (_ & (Htasks & _) & _). exact Htasks.
Defined.

(** C10. The URL of a host resource is the base URL, "/user/", the user id,
    "/hosts/", the host id and the path, joined as they are: no character of
    an identifier is escaped. So identifiers with "/" or "?" in them change
    which resource is addressed: host id "h/summary" with no path gives the
    URL of path "/summary" of host "h" (the host-information call becomes
    the indexing-summary call of another host), and a host id containing "?"
    turns the rest of the URL into a query. *)
Theorem hostUrl_concatenates_identifiers_unescaped :
  (forall userId hostId path : string,
      hostUrl (VStr userId) (VStr hostId) path
      = "https://api.webmaster.yandex.net/v4" +:+ "/user/" +:+ userId +:+ "/hosts/"
        +:+ hostId +:+ path)
  /\ (forall userId hostId path : string,
         hostUrl (VStr userId) (VStr (hostId +:+ path)) "" = hostUrl (VStr userId) (VStr hostId) path)
  /\ hostUrl (VStr "12345") (VStr "h/summary") "" = hostUrl (VStr "12345") (VStr "h") "/summary"
  /\ hostUrl (VStr "12345") (VStr "h?x=") "/summary"
     = "https://api.webmaster.yandex.net/v4/user/12345/hosts/h?x=/summary"
  /\ forall (JSON_parse : string -> Outcome Json) (JSON_stringify : Object -> string)
            (transport : Transport) (this : YandexWebmasterClient) (w : World),
      getHostInfo JSON_parse JSON_stringify transport this (VStr "12345") (VStr "h/summary") w
      = getIndexingSummary JSON_parse JSON_stringify transport this (VStr "12345") (VStr "h") w.
Proof.
  split; [| split; [| split; [| split]]]; try reflexivity.
  intros userId hostId path. unfold hostUrl. cbn [String_].
  now rewrite append_assoc, append_nil_r.
Qed.

(** * Further properties of the client and of the tool registry *)

(** ** What the required-field check rejects *)

Section Check.

Lemma trimEnd_empty (s : string) : trimEnd s = EmptyString -> whitespaceOnly s = true.
Proof.
  induction s as [| c s IH]; [reflexivity |].
  cbn [trimEnd whitespaceOnly]. destruct (trimEnd s) as [| d t].
  - destruct (isWhiteSpace c); [intros _; now rewrite IH | discriminate].
  - discriminate.
Qed.

Lemma trimStart_shape (s : string) :
  trimStart s = EmptyString \/
  exists c rest, trimStart s = String c rest /\ isWhiteSpace c = false.
Proof.
  induction s as [| c s IH]; [now left |].
  cbn [trimStart]. destruct (isWhiteSpace c) eqn:Hc; [exact IH |].
  right. now exists c, s.
Qed.

Lemma trimStart_empty (s : string) : trimStart s = EmptyString -> whitespaceOnly s = true.
Proof.
  induction s as [| c s IH]; [reflexivity |].
  cbn [trimStart whitespaceOnly]. destruct (isWhiteSpace c); [exact IH | discriminate].
Qed.

Lemma trim_empty_iff (s : string) : trim s = EmptyString <-> whitespaceOnly s = true.
Proof.
  split.
  - unfold trim. intros Hend. apply trimStart_empty.
    destruct (trimStart_shape s) as [Hs | (c & rest & Hs & Hc)]; [exact Hs |].
    rewrite Hs in Hend. apply trimEnd_empty in Hend.
    cbn [whitespaceOnly] in Hend. rewrite Hc in Hend. discriminate.
  - intros Hws. unfold trim. now rewrite (trimStart_whitespaceOnly s Hws).
Qed.

Lemma string_eqb_empty (s : string) : String.eqb s "" = true <-> s = EmptyString.
Proof. destruct s; cbn; split; congruence. Qed.

Lemma validateRequired_state (params : Object) (fields : list string) (w : World) :
  exists o, validateRequired params fields w = (o, w).
Proof.
  induction fields as [| f fields IH]; [now eexists |].
  cbn [validateRequired]. destruct (rejected (get params f)); [now eexists | exact IH].
Qed.

(** On a string the check is the test for white space only. *)
Lemma rejected_string (s : string) : rejected (VStr s) = whitespaceOnly s.
Proof.
  destruct (whitespaceOnly s) eqn:Hws.
  - now apply (missingOrBlank_rejected (VStr s)).
  - unfold rejected. cbn [truthy typeof String.eqb Ascii.eqb Bool.eqb andb].
    destruct (String.eqb s "") eqn:Hempty.
    + apply string_eqb_empty in Hempty. subst s. discriminate.
    + destruct (String.eqb (trim s) "") eqn:Htrim; [| reflexivity].
      apply string_eqb_empty, trim_empty_iff in Htrim. congruence.
Qed.

End Check.

(** X1. The check behind [validateRequired] rejects [undefined], [null],
    [false], the number 0 and the strings that are empty or made of white
    space only; it accepts a string with any other character in it, a
    non-zero integer, [true], an [Error] and an ordinary object. *)
Theorem required_check_by_kind_of_value :
  rejected VUndefined = true
  /\ rejected VNull = true
  /\ rejected (VBool false) = true
  /\ rejected (VBool true) = false
  /\ (forall n : Z, rejected (VNum n) = (n =? 0))
  /\ (forall s : string, rejected (VStr s) = whitespaceOnly s)
  /\ (forall name message : string, rejected (VError name message) = false)
  /\ rejected VObject = false.
Proof.
  repeat split; try reflexivity.
  - intros n. unfold rejected. cbn. destruct (n =? 0); reflexivity.
  - exact rejected_string.
Qed.

(** X2. [validateRequired] never touches the state. It returns exactly when
    every listed field of the object is accepted, a field the object lacks
    counting as [undefined]; otherwise it throws the error that names the
    first listed field that is rejected. *)
Theorem validateRequired_accepts_or_names_first
  (params : Object) (fields : list string) (w : World) :
  exists o,
    validateRequired params fields w = (o, w)
    /\ (o = Returned tt <-> forall f, In f fields -> rejected (get params f) = false)
    /\ (forall before f after,
           fields = before ++ f :: after ->
           (forall g, In g before -> rejected (get params g) = false) ->
           rejected (get params f) = true ->
           o = Thrown (newError (f +:+ " is required and must be non-empty")))
    /\ (forall f, In f fields -> params !! f = None -> o <> Returned tt).
Proof.
  induction fields as [| f fields IH].
  - exists (Returned tt). split; [reflexivity |]. split; [| split].
    + split; [intros _ g [] | reflexivity].
    + intros before g after Hsplit. destruct before; discriminate.
    + intros g [].
  - cbn [validateRequired]. destruct (rejected (get params f)) eqn:Hf.
    + eexists. split; [reflexivity |]. split; [| split].
      * split; [discriminate |]. intros Hall.
        rewrite (Hall f (or_introl eq_refl)) in Hf. discriminate.
      * intros before g after Hsplit Hbefore Hg.
        destruct before as [| b before]; cbn in Hsplit; injection Hsplit as <- _.
        -- reflexivity.
        -- rewrite (Hbefore f (or_introl eq_refl)) in Hf. discriminate.
      * discriminate.
    + destruct IH as (o & Hrun & Hiff & Hfirst & Hmissing).
      exists o. split; [exact Hrun |]. split; [| split].
      * rewrite Hiff. split.
        -- intros Hall g [<- | Hg]; [exact Hf | now apply Hall].
        -- intros Hall g Hg. apply Hall. now right.
      * intros before g after Hsplit Hbefore Hg.
        destruct before as [| b before]; cbn in Hsplit; injection Hsplit as <- Hrest.
        -- rewrite Hg in Hf. discriminate.
        -- apply (Hfirst before g after Hrest); [| exact Hg].
           intros h Hh. apply Hbefore. now right.
      * intros g [<- | Hg] Hnone.
        -- unfold get in Hf. rewrite Hnone in Hf. discriminate.
        -- now apply Hmissing with g.
Qed.

(** An object without [hostId]: the check names it. *)
Lemma validateRequired_accepts_or_names_first_witness :
  exists o,
    validateRequired {[ "userId" := VStr "12345" ]} ["userId"; "hostId"] [] = (o, [])
    /\ o = Thrown (newError "hostId is required and must be non-empty").
Proof.
  destruct (validateRequired_accepts_or_names_first
              {[ "userId" := VStr "12345" ]} ["userId"; "hostId"] [])
    as (o & Hrun & _ & Hfirst & _).
  exists o. split; [exact Hrun |].
  apply (Hfirst ["userId"] "hostId" []).
  - reflexivity.
  - intros g [<- | []]. reflexivity.
  - reflexivity.
Defined.

(** ** Which attempt decides a logical call *)

Section Attempts.

Variable JSON_parse : string -> Outcome Json.
Variable JSON_stringify : Object -> string.
Variable transport : Transport.
Variable this : YandexWebmasterClient.

Local Abbreviation makeRequest := (makeRequest JSON_parse JSON_stringify transport this).
Local Abbreviation fetchOptionsFor := (fetchOptionsFor JSON_stringify this).
Local Abbreviation settled := (settled JSON_parse).
Local Abbreviation attemptsLog := (attemptsLog JSON_stringify this).

Lemma makeRequest_decided (url : string) (options : RequestOptions) (n : nat) :
  forall (attempt : Z) (w : World) (o : Outcome Json),
    (forall i, (i < n)%nat ->
               exists e,
                 settled (transport (fetchCount w + i)%nat url (fetchOptionsFor options))
                 = Thrown e
                 /\ isRetryableError e = true) ->
    (n = 0%nat \/ attempt + Z.of_nat n <= retries (config this)) ->
    settled (transport (fetchCount w + n)%nat url (fetchOptionsFor options)) = o ->
    decisive (retries (config this)) (attempt + Z.of_nat n) o ->
    makeRequest url options attempt w = (o, w ++ attemptsLog url options attempt n).
Proof.
  induction n as [| n IH]; intros attempt w o Hfail Hbelow Hlast Hdec.
  - rewrite Nat.add_0_r in Hlast. rewrite Z.add_0_r in Hdec.
    destruct o as [result | e]; cbn [attemptsLog].
    + now apply makeRequest_returns.
    + apply makeRequest_propagates; [exact Hlast |].
      destruct Hdec as [-> | Hceil]; [apply andb_false_r |].
      replace (attempt <? retries (config this)) with false; [reflexivity |].
      symmetry. apply Z.ltb_ge. exact Hceil.
  - destruct (Hfail 0%nat) as (e & He & Hre); [lia |].
    rewrite Nat.add_0_r in He.
    rewrite (makeRequest_retries _ _ _ _ _ _ _ _ e He); [| lia | exact Hre].
    rewrite (IH (attempt + 1) _ o).
    + cbn [attemptsLog]. now rewrite <- app_assoc.
    + intros i Hi. rewrite fetchCount_after_wait.
      destruct (Hfail (S i)) as (e' & He' & Hre'); [lia |].
      exists e'. split; [| exact Hre'].
      replace (S (fetchCount w) + i)%nat with (fetchCount w + S i)%nat by lia. exact He'.
    + destruct n; [now left | right; lia].
    + rewrite fetchCount_after_wait.
      replace (S (fetchCount w) + n)%nat with (fetchCount w + S n)%nat by lia. exact Hlast.
    + replace (attempt + 1 + Z.of_nat n) with (attempt + Z.of_nat (S n)) by lia.
      exact Hdec.
Qed.

Lemma totalDelay_attemptsLog (url : string) (options : RequestOptions) (k : nat) :
  forall attempt,
    2 * totalDelay (attemptsLog url options attempt k)
    = retryDelay (config this) * Z.of_nat k * (2 * attempt + Z.of_nat k - 1).
Proof.
  induction k as [| k IH]; intros attempt; [cbn; lia |].
  cbn [attemptsLog].
  change (totalDelay (EvFetch ?u ?i :: EvDelay ?ms :: ?l)) with (ms + totalDelay l).
  rewrite Z.mul_add_distr_l, IH, Nat2Z.inj_succ. unfold Z.succ. ring.
Qed.

Lemma fetchesOf_attemptsLog (url : string) (options : RequestOptions) (k : nat) :
  forall attempt,
    fetchesOf (attemptsLog url options attempt k)
    = repeat (url, fetchOptionsFor options) (S k).
Proof.
  induction k as [| k IH]; intros attempt; [reflexivity |].
  cbn [attemptsLog].
  change (fetchesOf (EvFetch ?u ?i :: EvDelay ?ms :: ?l)) with ((u, i) :: fetchesOf l).
  now rewrite IH.
Qed.

End Attempts.

(** X3. A logical call is decided by its first decisive attempt: when the
    first [n] physical attempts fail with retryable errors below the
    ceiling and the next one returns a result, fails with an error that is
    not retryable, or fails at the ceiling, the call ends with the outcome
    of that attempt after exactly [n + 1] physical attempts and the waits
    [retryDelay * 1], ..., [retryDelay * n] between them. *)
Theorem makeRequest_decided_by_first_decisive_attempt
  (JSON_parse : string -> Outcome Json) (JSON_stringify : Object -> string)
  (transport : Transport) (this : YandexWebmasterClient)
  (url : string) (options : RequestOptions) (w : World) (n : nat) (o : Outcome Json) :
  let fetchOptions := fetchOptionsFor JSON_stringify this options in
  (forall i, (i < n)%nat ->
             exists e,
               settled JSON_parse (transport (fetchCount w + i)%nat url fetchOptions) = Thrown e
               /\ isRetryableError e = true) ->
  (n = 0%nat \/ 1 + Z.of_nat n <= retries (config this)) ->
  settled JSON_parse (transport (fetchCount w + n)%nat url fetchOptions) = o ->
  decisive (retries (config this)) (1 + Z.of_nat n) o ->
  exists w',
    makeRequest JSON_parse JSON_stringify transport this url options 1 w = (o, w')
    /\ w' = w ++ attemptsLog JSON_stringify this url options 1 n
    /\ fetchCount w' = (fetchCount w + (n + 1))%nat
    /\ delaysOf (attemptsLog JSON_stringify this url options 1 n)
       = map (fun k => retryDelay (config this) * (1 + Z.of_nat k)) (seq 0 n).
Proof.
  cbv zeta. intros Hfail Hbelow Hlast Hdec. eexists. split; [| split; [reflexivity | split]].
  - now apply makeRequest_decided.
  - rewrite fetchCount_app, fetchCount_attemptsLog. lia.
  - apply delaysOf_attemptsLog.
Qed.

(** The default client against [failingTwice]: the third attempt decides. *)
Lemma makeRequest_decided_by_first_decisive_attempt_witness :
  exists w',
    makeRequest sampleParse sampleStringify failingTwice defaultClient
      (API_BASE +:+ "/user") noOptions 1 []
    = (Returned (JArray [JNumber 1]), w')
    /\ w' = [] ++ attemptsLog sampleStringify defaultClient (API_BASE +:+ "/user") noOptions 1 2
    /\ fetchCount w' = 3%nat
    /\ delaysOf (attemptsLog sampleStringify defaultClient (API_BASE +:+ "/user") noOptions 1 2)
       = [1000; 2000].
Proof.
  apply (makeRequest_decided_by_first_decisive_attempt
           sampleParse sampleStringify failingTwice defaultClient
           (API_BASE +:+ "/user") noOptions [] 2 (Returned (JArray [JNumber 1]))).
  - intros i Hi. exists (upstreamError 503 "Service Unavailable").
    destruct i as [| [| i]]; [split; reflexivity | split; reflexivity | lia].
  - right. reflexivity.
  - reflexivity.
  - exact I.
Defined.

(** X4. Against a transport on which every attempt fails with a retryable
    error, whatever the kind (timeouts, 500/502/503 responses, ...): under a
    finite ceiling (no greater than 2^53) a logical call makes exactly as
    many physical attempts as the ceiling rounded up to an integer, or 1
    when that is below 1, and then propagates the error of the last one;
    under the ceiling [Infinity] it never settles. For an integer ceiling
    this is what [makeRequest] does. *)
Theorem persistent_failure_exhausts_finite_ceiling
  (JSON_parse : string -> Outcome Json) (JSON_stringify : Object -> string)
  (transport : Transport) (this : YandexWebmasterClient)
  (url : string) (options : RequestOptions) (w : World) :
  let fetchOptions := fetchOptionsFor JSON_stringify this options in
  (forall i, exists e,
        settled JSON_parse (transport i url fetchOptions) = Thrown e
        /\ isRetryableError e = true) ->
  (forall q : Q,
      (q <= inject_Z (2 ^ 53))%Q ->
      let count := Z.to_nat (Z.max 1 (Qceiling q)) in
      exists e,
        settled JSON_parse (transport (fetchCount w + (count - 1))%nat url fetchOptions)
        = Thrown e
        /\ (forall attempts : nat,
               makeRequestFor JSON_parse JSON_stringify transport this (Finite q)
                 attempts url options 1 w
               = if (count - 1 <? attempts)%nat
                 then Some (Thrown e,
                            w ++ attemptsLog JSON_stringify this url options 1 (count - 1))
                 else None)
        /\ fetchCount (w ++ attemptsLog JSON_stringify this url options 1 (count - 1))
           = (fetchCount w + count)%nat
        /\ (forall z : Z,
               q = inject_Z z ->
               makeRequest JSON_parse JSON_stringify transport (withRetries this z)
                 url options 1 w
               = (Thrown e, w ++ attemptsLog JSON_stringify this url options 1 (count - 1))))
  /\ forall attempts : nat,
      makeRequestFor JSON_parse JSON_stringify transport this PlusInfinity
        attempts url options 1 w
      = None.
Proof.
  cbv zeta. intros Hall. split.
  - intros q _.
    assert (Hcount : (Z.to_nat (Z.max 1 (Qceiling q)) - 1)%nat = Z.to_nat (Qceiling q - 1))
      by lia.
    rewrite Hcount.
    destruct (makeRequestFor_persistent JSON_parse JSON_stringify transport this q url options
                Hall (Z.to_nat (Qceiling q - 1)) 1 w eq_refl) as (e & He & Hrun).
    exists e. split; [exact He |]. split; [exact Hrun |]. split.
    + rewrite fetchCount_app, fetchCount_attemptsLog. lia.
    + intros z ->.
      pose proof (makeRequestFor_integer JSON_parse JSON_stringify transport this z url options
                    (S (Z.to_nat (Qceiling (inject_Z z) - 1) + Z.to_nat (z - 1))) 1 w) as Hint.
      rewrite Hrun in Hint.
      replace (Z.to_nat (Qceiling (inject_Z z) - 1)
               <? S (Z.to_nat (Qceiling (inject_Z z) - 1) + Z.to_nat (z - 1)))%nat
        with true in Hint by (symmetry; apply Nat.ltb_lt; lia).
      symmetry. specialize (Hint ltac:(lia)). now injection Hint.
  - intros attempts. now apply makeRequestFor_unbounded.
Qed.

(** A network that always times out: with [retries: 2.5] the call gives up
    after its third attempt, with [retries: 2] after its second, and with
    [retries: Infinity] it has not settled after a thousand. *)
Lemma persistent_failure_exhausts_finite_ceiling_witness :
  (exists e,
      forall attempts : nat,
        makeRequestFor sampleParse sampleStringify (fun _ _ _ => Rejects AbortError)
          defaultClient (Finite (5 # 2)) attempts (API_BASE +:+ "/user") noOptions 1 []
        = if (3 - 1 <? attempts)%nat
          then Some (Thrown e,
                     [] ++ attemptsLog sampleStringify defaultClient
                             (API_BASE +:+ "/user") noOptions 1 (3 - 1))
          else None)
  /\ (exists e,
        makeRequest sampleParse sampleStringify (fun _ _ _ => Rejects AbortError)
          (withRetries defaultClient 2) (API_BASE +:+ "/user") noOptions 1 []
        = (Thrown e,
           [] ++ attemptsLog sampleStringify defaultClient
                   (API_BASE +:+ "/user") noOptions 1 (2 - 1)))
  /\ makeRequestFor sampleParse sampleStringify (fun _ _ _ => Rejects AbortError)
       defaultClient PlusInfinity 1000 (API_BASE +:+ "/user") noOptions 1 []
     = None.
Proof.
  destruct (persistent_failure_exhausts_finite_ceiling
              sampleParse sampleStringify (fun _ _ _ => Rejects AbortError) defaultClient
              (API_BASE +:+ "/user") noOptions [])
    as [Hfinite Hunbounded].
  { intros i. exists AbortError. split; reflexivity. }
  split; [| split].
  - destruct (Hfinite (5 # 2) ltac:(vm_compute; discriminate)) as (e & _ & Hrun & _).
    exists e. exact Hrun.
  - destruct (Hfinite (inject_Z 2) ltac:(vm_compute; discriminate)) as (e & _ & _ & _ & Hint).
    exists e. exact (Hint 2 eq_refl).
  - apply Hunbounded.
Defined.

(** X5. The waits a logical call asks for between its attempts add up to
    [retryDelay * (1 + 2 + ... + retried)] for the [retried] retries it
    made; with a delay that is not negative and a finite ceiling, such that
    neither the ceiling nor the delay times it exceeds 2^53, this is at most
    [retryDelay * (1 + 2 + ... + (c - 1))], where [c] is the ceiling rounded
    up to an integer, or 1 when that is below 1. *)
Theorem requested_backoff_is_bounded
  (JSON_parse : string -> Outcome Json) (JSON_stringify : Object -> string)
  (transport : Transport) (this : YandexWebmasterClient) (q : Q)
  (url : string) (options : RequestOptions) (w : World) :
  0 <= retryDelay (config this) ->
  (q <= inject_Z (2 ^ 53))%Q ->
  retryDelay (config this) * Z.max 1 (Qceiling q) <= 2 ^ 53 ->
  let c := Z.max 1 (Qceiling q) in
  exists (retried : nat) (outcome : Outcome Json) (added : World),
    (forall attempts : nat,
        makeRequestFor JSON_parse JSON_stringify transport this (Finite q)
          attempts url options 1 w
        = if (retried <? attempts)%nat then Some (outcome, w ++ added) else None)
    /\ fetchCount added = S retried
    /\ delaysOf added
       = map (fun k => retryDelay (config this) * (1 + Z.of_nat k)) (seq 0 retried)
    /\ 2 * totalDelay added
       = retryDelay (config this) * (Z.of_nat retried * (Z.of_nat retried + 1))
    /\ 2 * totalDelay added <= retryDelay (config this) * ((c - 1) * c).
Proof.
  intros Hdelay _ _. cbv zeta.
  destruct (makeRequestFor_finite JSON_parse JSON_stringify transport this q url options
              (Z.to_nat (Qceiling q - 1)) 1 w (Nat.le_refl _))
    as (retried & outcome & Hbound & Hrun).
  exists retried, outcome, (attemptsLog JSON_stringify this url options 1 retried).
  split; [exact Hrun |]. split; [apply fetchCount_attemptsLog |].
  split; [apply delaysOf_attemptsLog |].
  rewrite totalDelay_attemptsLog.
  replace (2 * 1 + Z.of_nat retried - 1) with (Z.of_nat retried + 1) by lia.
  split; [ring |].
  rewrite <- Z.mul_assoc. apply Z.mul_le_mono_nonneg_l; [exact Hdelay |].
  destruct Hbound as [-> | Hk]; nia.
Qed.

(** The default delay under [retries: 2.5] against [alwaysUnavailable]:
    1000 + 2000 ms are asked for. *)
Lemma requested_backoff_is_bounded_witness :
  exists (retried : nat) (outcome : Outcome Json) (added : World),
    (forall attempts : nat,
        makeRequestFor sampleParse sampleStringify alwaysUnavailable defaultClient
          (Finite (5 # 2)) attempts (API_BASE +:+ "/user") noOptions 1 []
        = if (retried <? attempts)%nat then Some (outcome, [] ++ added) else None)
    /\ fetchCount added = S retried
    /\ delaysOf added = map (fun k => 1000 * (1 + Z.of_nat k)) (seq 0 retried)
    /\ 2 * totalDelay added = 1000 * (Z.of_nat retried * (Z.of_nat retried + 1))
    /\ 2 * totalDelay added <= 1000 * ((3 - 1) * 3).
Proof.
  apply (requested_backoff_is_bounded sampleParse sampleStringify alwaysUnavailable
           defaultClient (5 # 2) (API_BASE +:+ "/user") noOptions []).
  - cbn. lia.
  - vm_compute. discriminate.
  - vm_compute. discriminate.
Defined.

(** X6. A ceiling of 1 or less switches retrying off: whatever the attempt
    meets, a retryable failure included, the call makes one physical
    attempt, waits for nothing and ends with what that attempt gave. *)
Theorem ceiling_of_one_never_retries
  (JSON_parse : string -> Outcome Json) (JSON_stringify : Object -> string)
  (transport : Transport) (this : YandexWebmasterClient)
  (url : string) (options : RequestOptions) (w : World) :
  retries (config this) <= 1 ->
  let fetchOptions := fetchOptionsFor JSON_stringify this options in
  makeRequest JSON_parse JSON_stringify transport this url options 1 w
  = (settled JSON_parse (transport (fetchCount w) url fetchOptions),
     w ++ [EvFetch url fetchOptions]).
Proof.
  intros Hceil. cbv zeta.
  rewrite (makeRequest_decided JSON_parse JSON_stringify transport this url options 0 1 w
             (settled JSON_parse
                (transport (fetchCount w) url (fetchOptionsFor JSON_stringify this options)))).
  - reflexivity.
  - intros i Hi. lia.
  - now left.
  - now rewrite Nat.add_0_r.
  - destruct (settled _ _); [exact I | right; cbn; lia].
Qed.

(** A client built with [retries: 1] against [alwaysUnavailable]. *)
Lemma ceiling_of_one_never_retries_witness :
  let once :=
    constructor "token" {| cc_timeout := None; cc_retries := Some 1; cc_retryDelay := None |} in
  makeRequest sampleParse sampleStringify alwaysUnavailable once
    (API_BASE +:+ "/user") noOptions 1 []
  = (Thrown (upstreamError 503 "Service Unavailable"),
     [EvFetch (API_BASE +:+ "/user") (fetchOptionsFor sampleStringify once noOptions)]).
Proof.
  cbv zeta.
  apply (ceiling_of_one_never_retries sampleParse sampleStringify alwaysUnavailable
           (constructor "token"
              {| cc_timeout := None; cc_retries := Some 1; cc_retryDelay := None |})
           (API_BASE +:+ "/user") noOptions []).
  cbn. lia.
Defined.

(** X7. [retries: 0] does not switch retrying off: the constructor takes
    the default 3 for it, as it does when no [retries] is given, and against
    a transport that keeps failing retryably such a client makes three
    physical attempts, with two waits between them, before it propagates
    the error of the third. *)
Theorem zero_retries_means_three_attempts
  (JSON_parse : string -> Outcome Json) (JSON_stringify : Object -> string)
  (transport : Transport) (token : string) (supplied : ClientConfig)
  (url : string) (options : RequestOptions) (w : World) :
  let this := constructor token supplied in
  let fetchOptions := fetchOptionsFor JSON_stringify this options in
  cc_retries supplied = Some 0 \/ cc_retries supplied = None ->
  (forall i, exists e,
        settled JSON_parse (transport i url fetchOptions) = Thrown e
        /\ isRetryableError e = true) ->
  exists e,
    makeRequest JSON_parse JSON_stringify transport this url options 1 w
    = (Thrown e,
       w ++ [ EvFetch url fetchOptions; EvDelay (retryDelay (config this) * 1);
              EvFetch url fetchOptions; EvDelay (retryDelay (config this) * 2);
              EvFetch url fetchOptions ])
    /\ settled JSON_parse (transport (fetchCount w + 2)%nat url fetchOptions) = Thrown e.
Proof.
  cbv zeta. intros Hzero Hall.
  set (this := constructor token supplied) in *.
  assert (Hceil : retries (config this) = 3)
    by (cbn; destruct Hzero as [-> | ->]; reflexivity).
  destruct (Hall (fetchCount w + 2)%nat) as (e & He & Hre).
  exists e. split; [| exact He].
  apply (makeRequest_decided JSON_parse JSON_stringify transport this url options 2 1 w).
  - intros i _. apply Hall.
  - right. lia.
  - exact He.
  - right. lia.
Qed.

(** [new YandexWebmasterClient("token", {retries: 0})] against
    [alwaysUnavailable]. *)
Lemma zero_retries_means_three_attempts_witness :
  let this :=
    constructor "token" {| cc_timeout := None; cc_retries := Some 0; cc_retryDelay := None |} in
  let fetchOptions := fetchOptionsFor sampleStringify this noOptions in
  exists e,
    makeRequest sampleParse sampleStringify alwaysUnavailable this
      (API_BASE +:+ "/user") noOptions 1 []
    = (Thrown e,
       [] ++ [ EvFetch (API_BASE +:+ "/user") fetchOptions; EvDelay (1000 * 1);
               EvFetch (API_BASE +:+ "/user") fetchOptions; EvDelay (1000 * 2);
               EvFetch (API_BASE +:+ "/user") fetchOptions ])
    /\ settled sampleParse (alwaysUnavailable 2%nat (API_BASE +:+ "/user") fetchOptions)
       = Thrown e.
Proof.
  cbv zeta.
  apply (zero_retries_means_three_attempts sampleParse sampleStringify alwaysUnavailable
           "token" {| cc_timeout := None; cc_retries := Some 0; cc_retryDelay := None |}
           (API_BASE +:+ "/user") noOptions []).
  - left. reflexivity.
  - intros i. exists (upstreamError 503 "Service Unavailable"). split; reflexivity.
Defined.

(** X8. The body of a response with a 2xx status is parsed inside the
    [try] block, so a parse failure meets the same classification as a
    network failure: when its error is not retryable the call ends at once
    with that error after one physical attempt, and when it is (the
    message of the parse error contains "500", "502" or "503") and the
    ceiling is above 1, the client waits and requests the URL again. *)
Theorem parse_failure_is_classified_like_any_failure
  (JSON_parse : string -> Outcome Json) (JSON_stringify : Object -> string)
  (transport : Transport) (this : YandexWebmasterClient)
  (url : string) (options : RequestOptions) (w : World)
  (st : Z) (txt : string) (e : Value) :
  let fetchOptions := fetchOptionsFor JSON_stringify this options in
  transport (fetchCount w) url fetchOptions = Responds st txt ->
  200 <= st <= 299 ->
  txt <> "" ->
  JSON_parse txt = Thrown e ->
  (isRetryableError e = false ->
   makeRequest JSON_parse JSON_stringify transport this url options 1 w
   = (Thrown e, w ++ [EvFetch url fetchOptions]))
  /\ (isRetryableError e = true -> 1 < retries (config this) ->
      makeRequest JSON_parse JSON_stringify transport this url options 1 w
      = makeRequest JSON_parse JSON_stringify transport this url options 2
          (w ++ [EvFetch url fetchOptions; EvDelay (retryDelay (config this) * 1)])).
Proof.
  cbv zeta. intros Hresp Hst Hne Hparse.
  assert (Hsettled : settled JSON_parse
                       (transport (fetchCount w) url (fetchOptionsFor JSON_stringify this options))
                     = Thrown e).
  { rewrite Hresp. unfold settled, ok. cbn [status responseText].
    replace ((200 <=? st) && (st <=? 299)) with true by (symmetry; apply andb_true_iff; lia).
    cbn [negb]. destruct txt; [congruence | exact Hparse]. }
  split.
  - intros Hno. apply makeRequest_propagates; [exact Hsettled |].
    rewrite Hno. apply andb_false_r.
  - intros Hre Hceil. change 2 with (1 + 1).
    apply (makeRequest_retries _ _ _ _ _ _ _ _ e Hsettled); [lia | exact Hre].
Qed.

(** A parser whose error quotes the text, on a 200 response with the body
    "error 503": the default client waits and asks again. *)
Lemma parse_failure_is_classified_like_any_failure_witness :
  let quoting (text : string) : Outcome Json :=
    Thrown (VError "SyntaxError" ("Unexpected token in " +:+ text)) in
  let answer : Transport := fun _ _ _ => Responds 200 "error 503" in
  let fetchOptions := fetchOptionsFor sampleStringify defaultClient noOptions in
  makeRequest quoting sampleStringify answer defaultClient (API_BASE +:+ "/user") noOptions 1 []
  = makeRequest quoting sampleStringify answer defaultClient (API_BASE +:+ "/user") noOptions 2
      [EvFetch (API_BASE +:+ "/user") fetchOptions; EvDelay 1000].
Proof.
  cbv zeta.
  apply (proj2 (parse_failure_is_classified_like_any_failure
                  (fun text => Thrown (VError "SyntaxError" ("Unexpected token in " +:+ text)))
                  sampleStringify (fun _ _ _ => Responds 200 "error 503") defaultClient
                  (API_BASE +:+ "/user") noOptions [] 200 "error 503"
                  (VError "SyntaxError" "Unexpected token in error 503")
                  eq_refl ltac:(lia) ltac:(discriminate) eq_refl)).
  - reflexivity.
  - reflexivity.
Defined.

(** ** The requests an operation sends *)

Section Requests.

Lemma user_url_prefix (rest : string) :
  String.prefix (API_BASE +:+ "/user") (API_BASE +:+ "/user/" +:+ rest) = true.
Proof.
  change (API_BASE +:+ "/user/" +:+ rest)
    with ((API_BASE +:+ "/user") +:+ String "/" rest).
  apply prefix_app_l.
Qed.

Lemma hostUrl_prefix (userId hostId : Value) (path : string) :
  String.prefix (API_BASE +:+ "/user") (hostUrl userId hostId path) = true.
Proof. apply user_url_prefix. Qed.

Variable JSON_parse : string -> Outcome Json.
Variable JSON_stringify : Object -> string.
Variable transport : Transport.
Variable this : YandexWebmasterClient.

Local Abbreviation perform := (perform JSON_parse JSON_stringify transport this).
Local Abbreviation makeRequest := (makeRequest JSON_parse JSON_stringify transport this).
Local Abbreviation fetchOptionsFor := (fetchOptionsFor JSON_stringify this).
Local Abbreviation attemptsLog := (attemptsLog JSON_stringify this).

(** Every operation is its check followed by one logical call for a URL
    under the base URL, with a body exactly when the method is POST. *)
Lemma perform_shape (c : Call) :
  exists (params : Object) (url : string) (options : RequestOptions),
    (forall w,
        perform c w
        = (validateRequired params (map fst (requiredFields c));;
           makeRequest url options 1) w)
    /\ (forall fv, In fv (requiredFields c) -> get params (fst fv) = snd fv)
    /\ String.prefix (API_BASE +:+ "/user") url = true
    /\ (body options <> None <-> method options = Some POST).
Proof.
  destruct c; [exists ∅ | eexists ..]; eexists; eexists;
    (split; [intros w; reflexivity |]);
    (split; [intros fv Hin; cbn in Hin; intuition (subst; reflexivity) |]);
    (split; [first [reflexivity | apply user_url_prefix | apply hostUrl_prefix] |]);
    cbn; split; congruence.
Qed.

Lemma perform_log (c : Call) (w : World) :
  exists (outcome : Outcome Json) (added : World),
    perform c w = (outcome, w ++ added)
    /\ (added = [] \/
        exists url options retried,
          added = attemptsLog url options 1 retried
          /\ String.prefix (API_BASE +:+ "/user") url = true
          /\ (body options <> None <-> method options = Some POST)
          /\ 1 + Z.of_nat retried <= Z.max 1 (retries (config this))).
Proof.
  destruct (perform_shape c) as (params & url & options & Hshape & _ & Hprefix & Hbody).
  rewrite Hshape. unfold mbind, M_bind.
  destruct (validateRequired_state params (map fst (requiredFields c)) w) as (o & ->).
  destruct o as [[] | e].
  - destruct (makeRequest_log JSON_parse JSON_stringify transport this url options
                (Z.to_nat (retries (config this) - 1)) 1 w (Nat.le_refl _))
      as (retried & outcome & Hrun & Hbound).
    exists outcome, (attemptsLog url options 1 retried). split; [exact Hrun |].
    right. exists url, options, retried. repeat split; try tauto.
    destruct Hbound as [-> | Hk]; lia.
  - exists (Thrown e), []. split; [now rewrite app_nil_r | now left].
Qed.

Lemma in_fetchesOf_attemptsLog (url : string) (options : RequestOptions) (attempt : Z)
      (retried : nat) (u : string) (init : RequestInit) :
  In (u, init) (fetchesOf (attemptsLog url options attempt retried)) ->
  u = url /\ init = fetchOptionsFor options.
Proof.
  rewrite fetchesOf_attemptsLog. intros Hin. apply repeat_spec in Hin.
  now injection Hin.
Qed.

End Requests.

(** X9. Whatever the operation and its arguments, every call of [fetch] it
    makes is given a URL whose text begins with the base URL followed by
    "/user", exactly the headers [Authorization: OAuth <token>] and
    [Content-Type: application/json], and the signal of a controller whose
    abort timer was set with the configured timeout. *)
Theorem every_request_targets_the_api_with_the_token
  (JSON_parse : string -> Outcome Json) (JSON_stringify : Object -> string)
  (transport : Transport) (this : YandexWebmasterClient) (c : Call) (w : World) :
  exists (outcome : Outcome Json) (added : World),
    perform JSON_parse JSON_stringify transport this c w = (outcome, w ++ added)
    /\ forall (url : string) (init : RequestInit),
        In (url, init) (fetchesOf added) ->
        String.prefix "https://api.webmaster.yandex.net/v4/user" url = true
        /\ init_headers init = [ ("Authorization", "OAuth " +:+ token this);
                                 ("Content-Type", "application/json") ]
        /\ init_signal init = timeout (config this).
Proof.
  destruct (perform_log JSON_parse JSON_stringify transport this c w)
    as (outcome & added & Hrun & [-> | (url & options & retried & -> & Hprefix & _ & _)]);
    exists outcome; eexists; (split; [exact Hrun |]).
  - intros url init [].
  - intros u init Hin. apply in_fetchesOf_attemptsLog in Hin as [-> ->].
    split; [exact Hprefix | split; reflexivity].
Qed.

(** X10. The retries of an operation repeat its request unchanged: all the
    physical requests of one call have the same URL and the same options;
    the method is GET, POST or DELETE as the operation fixes it, and a body
    is sent exactly with POST. *)
Theorem retries_repeat_the_same_request
  (JSON_parse : string -> Outcome Json) (JSON_stringify : Object -> string)
  (transport : Transport) (this : YandexWebmasterClient) (c : Call) (w : World) :
  exists (outcome : Outcome Json) (added : World),
    perform JSON_parse JSON_stringify transport this c w = (outcome, w ++ added)
    /\ (forall first second, In first (fetchesOf added) -> In second (fetchesOf added) ->
                             first = second)
    /\ forall (url : string) (init : RequestInit),
        In (url, init) (fetchesOf added) ->
        (init_body init <> None <-> init_method init = POST).
Proof.
  destruct (perform_log JSON_parse JSON_stringify transport this c w)
    as (outcome & added & Hrun & [-> | (url & options & retried & -> & _ & Hbody & _)]);
    exists outcome; eexists; (split; [exact Hrun |]).
  - split; [intros first second [] | intros url init []].
  - split.
    + intros [u1 i1] [u2 i2] H1 H2.
      apply in_fetchesOf_attemptsLog in H1 as [-> ->].
      apply in_fetchesOf_attemptsLog in H2 as [-> ->]. reflexivity.
    + intros u init Hin. apply in_fetchesOf_attemptsLog in Hin as [-> ->].
      cbn [fetchOptionsFor init_body init_method].
      destruct options as [[[] |] [b |]]; cbn in *; intuition congruence.
Qed.

(** ** URLs: what identifiers and query values can and cannot change *)

Section UrlText.

Lemma append_inj_l (a x y : string) : a +:+ x = a +:+ y -> x = y.
Proof.
  induction a as [| c a IH]; [trivial |].
  rewrite !append_cons. intros Heq. injection Heq as Heq. auto.
Qed.

Lemma avoids_app_separator (c : ascii) (a b : string) : avoids c (a +:+ String c b) = false.
Proof.
  induction a as [| x a IH].
  - rewrite append_nil_l. cbn [avoids]. now rewrite Ascii.eqb_refl.
  - rewrite append_cons. cbn [avoids]. rewrite IH. apply andb_false_r.
Qed.

(** Two texts cut at the first separator agree piece by piece. *)
Lemma split_at_separator (c : ascii) (a a' b b' : string) :
  avoids c a = true -> avoids c a' = true ->
  a +:+ String c b = a' +:+ String c b' ->
  a = a' /\ b = b'.
Proof.
  revert a'. induction a as [| x a IH]; intros [| y a'] Ha Ha' Heq.
  - rewrite !append_nil_l in Heq. now injection Heq.
  - rewrite append_nil_l, append_cons in Heq. injection Heq as <- _.
    cbn in Ha'. rewrite Ascii.eqb_refl in Ha'. discriminate.
  - rewrite append_nil_l, append_cons in Heq. injection Heq as -> _.
    cbn in Ha. rewrite Ascii.eqb_refl in Ha. discriminate.
  - rewrite !append_cons in Heq. injection Heq as -> Heq.
    cbn in Ha, Ha'. apply andb_true_iff in Ha as [_ Ha]. apply andb_true_iff in Ha' as [_ Ha'].
    destruct (IH a' Ha Ha' Heq) as [-> ->]. now split.
Qed.

Lemma countChar_app (c : ascii) (a b : string) :
  countChar c (a +:+ b) = (countChar c a + countChar c b)%nat.
Proof.
  induction a as [| x a IH]; [reflexivity |].
  rewrite append_cons. cbn [countChar]. rewrite IH. lia.
Qed.

(** The serialiser leaves none of the characters that structure a URL. *)
Lemma encodeUnit_escapes (x : ascii) :
  countChar "&" (URLSearchParams.encodeUnit x) = 0%nat
  /\ countChar "=" (URLSearchParams.encodeUnit x) = 0%nat
  /\ countChar "?" (URLSearchParams.encodeUnit x) = 0%nat
  /\ countChar "#" (URLSearchParams.encodeUnit x) = 0%nat
  /\ countChar "/" (URLSearchParams.encodeUnit x) = 0%nat
  /\ countChar " " (URLSearchParams.encodeUnit x) = 0%nat.
Proof.
  destruct x as [[] [] [] [] [] [] [] []]; vm_compute; repeat split.
Qed.

Lemma encode_escapes (s : string) :
  countChar "&" (URLSearchParams.encode s) = 0%nat
  /\ countChar "=" (URLSearchParams.encode s) = 0%nat
  /\ countChar "?" (URLSearchParams.encode s) = 0%nat
  /\ countChar "#" (URLSearchParams.encode s) = 0%nat
  /\ countChar "/" (URLSearchParams.encode s) = 0%nat
  /\ countChar " " (URLSearchParams.encode s) = 0%nat.
Proof.
  induction s as [| x s IH]; [repeat split |].
  cbn [URLSearchParams.encode]. rewrite !countChar_app.
  destruct (encodeUnit_escapes x) as (-> & -> & -> & -> & -> & ->).
  exact IH.
Qed.

Lemma pair_counts (k v : string) (c : ascii) :
  countChar c (URLSearchParams.encode k +:+ "=" +:+ URLSearchParams.encode v)
  = (countChar c (URLSearchParams.encode k) + (if Ascii.eqb "=" c then 1 else 0)
     + countChar c (URLSearchParams.encode v))%nat.
Proof.
  rewrite countChar_app. change ("=" +:+ URLSearchParams.encode v)
    with (String "=" (URLSearchParams.encode v)).
  cbn [countChar]. lia.
Qed.

Lemma toString_counts (params : URLSearchParams.t) :
  countChar "&" (URLSearchParams.toString params) = pred (length params)
  /\ countChar "=" (URLSearchParams.toString params) = length params
  /\ countChar "?" (URLSearchParams.toString params) = 0%nat
  /\ countChar "#" (URLSearchParams.toString params) = 0%nat
  /\ countChar "/" (URLSearchParams.toString params) = 0%nat
  /\ countChar " " (URLSearchParams.toString params) = 0%nat.
Proof.
  induction params as [| [k v] params IH]; [repeat split |].
  destruct (encode_escapes k) as (Hk1 & Hk2 & Hk3 & Hk4 & Hk5 & Hk6).
  destruct (encode_escapes v) as (Hv1 & Hv2 & Hv3 & Hv4 & Hv5 & Hv6).
  destruct params as [| p params].
  - cbn [URLSearchParams.toString length pred]. rewrite !pair_counts.
    rewrite Hk1, Hk2, Hk3, Hk4, Hk5, Hk6, Hv1, Hv2, Hv3, Hv4, Hv5, Hv6. repeat split.
  - destruct IH as (I1 & I2 & I3 & I4 & I5 & I6).
    change (URLSearchParams.toString ((k, v) :: p :: params))
      with (URLSearchParams.encode k +:+ "=" +:+ URLSearchParams.encode v +:+ "&"
            +:+ URLSearchParams.toString (p :: params)).
    rewrite <- !append_assoc.
    rewrite !(countChar_app _ _ (URLSearchParams.toString (p :: params))).
    rewrite !(countChar_app _ _ "&"). rewrite !append_assoc, !pair_counts.
    rewrite Hk1, Hk2, Hk3, Hk4, Hk5, Hk6, Hv1, Hv2, Hv3, Hv4, Hv5, Hv6.
    rewrite I1, I2, I3, I4, I5, I6. cbn. repeat split; lia.
Qed.

Lemma encode_uint (d : Decimal.uint) :
  URLSearchParams.encode (NilEmpty.string_of_uint d) = NilEmpty.string_of_uint d.
Proof.
  induction d as [| d IH | d IH | d IH | d IH | d IH | d IH | d IH | d IH | d IH | d IH];
    [reflexivity | ..];
    cbn [NilEmpty.string_of_uint URLSearchParams.encode]; rewrite IH; reflexivity.
Qed.

(** A printed integer passes the serialiser unchanged. *)
Lemma encode_numberToString (n : Z) :
  URLSearchParams.encode (numberToString n) = numberToString n.
Proof.
  unfold numberToString.
  destruct (Z.to_int n) as [d | d]; cbn [NilZero.string_of_int].
  - destruct d; try reflexivity; apply encode_uint.
  - cbn [URLSearchParams.encode].
    change (URLSearchParams.encodeUnit "-") with "-"%string. rewrite append_cons, append_nil_l.
    f_equal. destruct d; try reflexivity; apply encode_uint.
Qed.

End UrlText.

(** X11. For identifiers without a slash, [hostUrl] keeps resources apart:
    if neither user id nor host id contains "/", and the path is empty or
    begins with "/" (as every path the client passes does), then the URL
    determines the user id, the host id and the path. *)
Theorem hostUrl_injective_on_slash_free_identifiers
  (userId userId' hostId hostId' path path' : string) :
  avoids "/" userId = true -> avoids "/" userId' = true ->
  avoids "/" hostId = true -> avoids "/" hostId' = true ->
  isPath path = true -> isPath path' = true ->
  hostUrl (VStr userId) (VStr hostId) path = hostUrl (VStr userId') (VStr hostId') path' ->
  userId = userId' /\ hostId = hostId' /\ path = path'.
Proof.
  intros Hu Hu' Hh Hh' Hp Hp' Heq. unfold hostUrl in Heq. cbn [String_] in Heq.
  change (API_BASE +:+ "/user/" +:+ userId +:+ "/hosts/" +:+ hostId +:+ path)
    with ((API_BASE +:+ "/user/") +:+ (userId +:+ String "/" ("hosts/" +:+ hostId +:+ path)))
    in Heq.
  change (API_BASE +:+ "/user/" +:+ userId' +:+ "/hosts/" +:+ hostId' +:+ path')
    with ((API_BASE +:+ "/user/") +:+ (userId' +:+ String "/" ("hosts/" +:+ hostId' +:+ path')))
    in Heq.
  apply append_inj_l in Heq.
  apply split_at_separator in Heq as [-> Heq]; [| assumption | assumption].
  apply append_inj_l in Heq. split; [reflexivity |].
  destruct path as [| c path], path' as [| c' path'].
  - rewrite !append_nil_r in Heq. now split.
  - cbn in Hp'. apply Ascii.eqb_eq in Hp'. subst c'.
    rewrite append_nil_r in Heq. subst hostId.
    rewrite avoids_app_separator in Hh. discriminate.
  - cbn in Hp. apply Ascii.eqb_eq in Hp. subst c.
    rewrite append_nil_r in Heq. subst hostId'.
    rewrite avoids_app_separator in Hh'. discriminate.
  - cbn in Hp, Hp'. apply Ascii.eqb_eq in Hp, Hp'. subst c c'.
    apply split_at_separator in Heq as [-> ->]; [now split | assumption | assumption].
Qed.

(** One user, one host, one path. *)
Lemma hostUrl_injective_on_slash_free_identifiers_witness :
  "12345" = "12345" /\ "https:a.example:443" = "https:a.example:443"
  /\ "/summary" = "/summary".
Proof.
  apply (hostUrl_injective_on_slash_free_identifiers
           "12345" "12345" "https:a.example:443" "https:a.example:443" "/summary" "/summary").
  - reflexivity.
  - reflexivity.
  - reflexivity.
  - reflexivity.
  - reflexivity.
  - reflexivity.
  - reflexivity.
Defined.

(** X12. The text searched for cannot change the shape of the URL that
    [getSingleQueryHistory] requests: for a user and a host that pass the
    check and a query text and two dates that are strings with a character
    other than white space, the operation requests the host URL followed by
    [/search-queries/history?query_text=<text>&date_from=<from>&date_to=<to>]
    with the three values escaped, so that the query holds exactly three "="
    and two "&" and no "?", "#", "/" or space, whatever the text is. *)
Theorem query_values_are_escaped
  (JSON_parse : string -> Outcome Json) (JSON_stringify : Object -> string)
  (transport : Transport) (this : YandexWebmasterClient)
  (userId hostId : Value) (queryText since until : string) (w : World) :
  rejected userId = false -> rejected hostId = false ->
  whitespaceOnly queryText = false -> whitespaceOnly since = false ->
  whitespaceOnly until = false ->
  let query :=
    "query_text=" +:+ URLSearchParams.encode queryText
    +:+ "&date_from=" +:+ URLSearchParams.encode since
    +:+ "&date_to=" +:+ URLSearchParams.encode until in
  getSingleQueryHistory JSON_parse JSON_stringify transport this userId hostId (VStr queryText)
    {| dateFrom := VStr since; dateTo := VStr until |} w
  = makeRequest JSON_parse JSON_stringify transport this
      (hostUrl userId hostId ("/search-queries/history?" +:+ query)) noOptions 1 w
  /\ countChar "&" query = 2%nat /\ countChar "=" query = 3%nat
  /\ countChar "?" query = 0%nat /\ countChar "#" query = 0%nat
  /\ countChar "/" query = 0%nat /\ countChar " " query = 0%nat.
Proof.
  intros Hu Hh Hq Hs Ht. cbv zeta.
  rewrite <- rejected_string in Hq, Hs, Ht.
  rewrite getSingleQueryHistory_accepted by assumption.
  cbn [dateFrom dateTo].
  pose proof (toString_counts
                (URLSearchParams.ofRecord
                   [ ("query_text", VStr queryText); ("date_from", VStr since);
                     ("date_to", VStr until) ]))
    as Hcounts.
  cbn [URLSearchParams.ofRecord map fst snd URLSearchParams.toString length pred String_] in *.
  change (URLSearchParams.encode "query_text") with "query_text"%string in *.
  change (URLSearchParams.encode "date_from") with "date_from"%string in *.
  change (URLSearchParams.encode "date_to") with "date_to"%string in *.
  split; [reflexivity | exact Hcounts].
Qed.

(** The history of the query "a b&c=d/e?" in January 2024. *)
Lemma query_values_are_escaped_witness :
  getSingleQueryHistory sampleParse sampleStringify notFound defaultClient
    (VStr "12345") (VStr "https:example.com:443") (VStr "a b&c=d/e?")
    {| dateFrom := VStr "2024-01-01"; dateTo := VStr "2024-01-31" |} []
  = makeRequest sampleParse sampleStringify notFound defaultClient
      ("https://api.webmaster.yandex.net/v4/user/12345/hosts/https:example.com:443"
       +:+ "/search-queries/history?query_text=a+b%26c%3Dd%2Fe%3F"
       +:+ "&date_from=2024-01-01&date_to=2024-01-31")
      noOptions 1 [].
Proof.
  exact (proj1 (query_values_are_escaped sampleParse sampleStringify notFound defaultClient
                  (VStr "12345") (VStr "https:example.com:443") "a b&c=d/e?"
                  "2024-01-01" "2024-01-31" []
                  eq_refl eq_refl eq_refl eq_refl eq_refl)).
Defined.

(** What the paging query adds to a path, for integers that print in plain
    decimal. *)
Lemma paging_query_text (path : string) (n m : Z) (absent : Value) :
  n <> 0 -> m <> 0 -> truthy absent = false ->
  let query limit offset :=
    withQueryString path (URLSearchParams.toString (pageQueryParams limit offset)) in
  query (VNum n) (VNum m)
  = path +:+ "?limit=" +:+ numberToString n +:+ "&offset=" +:+ numberToString m
  /\ query (VNum n) absent = path +:+ "?limit=" +:+ numberToString n
  /\ query absent (VNum m) = path +:+ "?offset=" +:+ numberToString m
  /\ query absent absent = path +:+ "".
Proof.
  intros Hn Hm Habsent. cbv zeta. unfold pageQueryParams, withQueryString.
  rewrite Habsent. cbn [truthy String_].
  replace (n =? 0) with false by (symmetry; now apply Z.eqb_neq).
  replace (m =? 0) with false by (symmetry; now apply Z.eqb_neq).
  cbn [negb URLSearchParams.set URLSearchParams.empty URLSearchParams.toString String.eqb
       Ascii.eqb Bool.eqb].
  change (URLSearchParams.encode "limit") with "limit"%string.
  change (URLSearchParams.encode "offset") with "offset"%string.
  rewrite !encode_numberToString.
  repeat split; rewrite ?append_cons, ?append_nil_l; reflexivity.
Qed.

(** X13. The four paging operations pass non-zero integers on as they are:
    for a user and a host that pass the check and for integers of at most
    2^53 in size (which print in plain decimal), each operation requests its
    path followed by [?limit=<limit>&offset=<offset>] when it is given
    both, by the one it is given when the other is absent or 0, and its bare
    path, without "?", when it is given neither. Negative numbers are passed
    on like positive ones. *)
Theorem paging_query_string
  (JSON_parse : string -> Outcome Json) (JSON_stringify : Object -> string)
  (transport : Transport) (this : YandexWebmasterClient)
  (userId hostId : Value) (n m : Z) (absent : Value) (w : World) :
  rejected userId = false -> rejected hostId = false ->
  n <> 0 -> m <> 0 -> Z.abs n <= 2 ^ 53 -> Z.abs m <= 2 ^ 53 ->
  truthy absent = false ->
  let request path :=
    makeRequest JSON_parse JSON_stringify transport this (hostUrl userId hostId path)
      noOptions 1 w in
  let paged (operation : Value -> Value -> Value -> Value -> M Json) (path : string) :=
    operation userId hostId (VNum n) (VNum m) w
    = request (path +:+ "?limit=" +:+ numberToString n +:+ "&offset=" +:+ numberToString m)
    /\ operation userId hostId (VNum n) absent w
       = request (path +:+ "?limit=" +:+ numberToString n)
    /\ operation userId hostId absent (VNum m) w
       = request (path +:+ "?offset=" +:+ numberToString m)
    /\ operation userId hostId absent absent w = request path in
  paged (getIndexingSamples JSON_parse JSON_stringify transport this) "/indexing/samples"
  /\ paged (getRecrawlTasks JSON_parse JSON_stringify transport this) "/recrawl/tasks"
  /\ paged (getInternalLinks JSON_parse JSON_stringify transport this)
       "/links/internal/samples"
  /\ paged (getExternalLinks JSON_parse JSON_stringify transport this)
       "/links/external/samples".
Proof.
  intros Hu Hh Hn Hm _ _ Habsent. cbv beta zeta.
  rewrite !getIndexingSamples_accepted, !getRecrawlTasks_accepted,
    !getInternalLinks_accepted, !getExternalLinks_accepted by assumption.
  destruct (paging_query_text "/indexing/samples" n m absent Hn Hm Habsent)
    as (-> & -> & -> & ->).
  destruct (paging_query_text "/recrawl/tasks" n m absent Hn Hm Habsent)
    as (-> & -> & -> & ->).
  destruct (paging_query_text "/links/internal/samples" n m absent Hn Hm Habsent)
    as (-> & -> & -> & ->).
  destruct (paging_query_text "/links/external/samples" n m absent Hn Hm Habsent)
    as (-> & -> & -> & ->).
  repeat split.
Qed.

(** Ten samples from the twentieth on, and the tasks with no paging. *)
Lemma paging_query_string_witness :
  getIndexingSamples sampleParse sampleStringify notFound defaultClient
    (VStr "12345") (VStr "https:example.com:443") (VNum 10) (VNum 20) []
  = makeRequest sampleParse sampleStringify notFound defaultClient
      ("https://api.webmaster.yandex.net/v4/user/12345/hosts/https:example.com:443"
       +:+ "/indexing/samples?limit=10&offset=20")
      noOptions 1 []
  /\ getRecrawlTasks sampleParse sampleStringify notFound defaultClient
       (VStr "12345") (VStr "https:example.com:443") VUndefined VUndefined []
     = makeRequest sampleParse sampleStringify notFound defaultClient
         ("https://api.webmaster.yandex.net/v4/user/12345/hosts/https:example.com:443"
          +:+ "/recrawl/tasks")
         noOptions 1 [].
Proof.
  destruct (paging_query_string sampleParse sampleStringify notFound defaultClient
              (VStr "12345") (VStr "https:example.com:443") 10 20 VUndefined []
              eq_refl eq_refl ltac:(discriminate) ltac:(discriminate)
              ltac:(vm_compute; discriminate) ltac:(vm_compute; discriminate) eq_refl)
    as ((Hboth & _) & (_ & _ & _ & Hnone) & _).
  split; [exact Hboth | exact Hnone].
Defined.

(** X14. The query of [getPopularQueries] always starts with [date_from],
    [date_to] and [order_by], in this order, and continues with
    [query_indicator], [limit] and [offset], in this order, each present
    exactly when its value is truthy; every value is the string coercion of
    the member, and no key occurs twice. *)
Theorem popular_query_parameters (params : SearchQueriesParams) :
  let optional (key : string) (v : Value) :=
    if truthy v then [(key, String_ v)] else [] in
  popularQueryParams params
  = [ ("date_from", String_ (sq_dateFrom params));
      ("date_to", String_ (sq_dateTo params));
      ("order_by", String_ (orderBy params)) ]
    ++ optional "query_indicator" (queryIndicator params)
    ++ optional "limit" (limit params)
    ++ optional "offset" (offset params)
  /\ List.NoDup (URLSearchParams.keys (popularQueryParams params)).
Proof.
  cbv zeta. unfold popularQueryParams.
  destruct (truthy (queryIndicator params)), (truthy (limit params)),
    (truthy (offset params));
    (split; [reflexivity |]); cbn;
    repeat (constructor; [cbn; intuition discriminate |]); constructor.
Qed.

(** ** The registered tools *)

Section Accepted.

Variable JSON_parse : string -> Outcome Json.
Variable JSON_stringify : Object -> string.
Variable transport : Transport.
Variable this : YandexWebmasterClient.

(** An operation whose required parameters all pass the check is the
    logical call for its URL. *)
Lemma perform_accepted (c : Call) :
  List.find (fun fv => rejected (snd fv)) (requiredFields c) = None ->
  exists (url : string) (options : RequestOptions),
    forall w,
      perform JSON_parse JSON_stringify transport this c w
      = makeRequest JSON_parse JSON_stringify transport this url options 1 w.
Proof.
  intros Hfind.
  destruct (perform_shape JSON_parse JSON_stringify transport this c)
    as (params & url & options & Hshape & Hget & _).
  exists url, options. intros w. rewrite Hshape. unfold mbind, M_bind.
  now rewrite (validateRequired_find params _ w Hget), Hfind.
Qed.

End Accepted.

Section ToolResults.

Variable JSON_parse : string -> Outcome Json.
Variable JSON_stringify : Object -> string.
Variable JSON_stringify_pretty : Json -> string.
Variable transport : Transport.
Variable token : string.

Local Abbreviation client := (client token).
Local Abbreviation perform := (perform JSON_parse JSON_stringify transport client).
Local Abbreviation registeredTool :=
  (registeredTool JSON_parse JSON_stringify JSON_stringify_pretty transport token).

(** A registered tool is the client call of its handler, with the payload
    printed or the error caught. *)
Lemma registeredTool_run (tool : Tool) (params : Object) (w : World) :
  registeredTool tool params w
  = match perform (toolCall tool params) w with
    | (Returned payload, w') =>
        (Returned {| isError := None;
                     content := [ {| type := "text";
                                     text := JSON_stringify_pretty payload |} ] |}, w')
    | (Thrown e, w') =>
        (Returned (errorResult e),
         w' ++ [EvConsoleError ("[Tool Error] " +:+ caughtMessage e)])
    end.
Proof.
  unfold registeredTool, withErrorHandling, tryCatch, handler, mbind, M_bind.
  destruct (perform (toolCall tool params) w) as [[payload | e] w']; [reflexivity |].
  destruct e; reflexivity.
Qed.

Lemma fetchesOf_app (w1 w2 : World) : fetchesOf (w1 ++ w2) = fetchesOf w1 ++ fetchesOf w2.
Proof. unfold fetchesOf. apply omap_app. Qed.

End ToolResults.

(** X15. A registered tool always answers with a result and never throws,
    whatever its parameter object holds. The result has exactly one block,
    of type text: the payload of the client call printed by
    [JSON.stringify(payload, null, 2)] with no [isError] when the call
    returned, and "Error: " with the message when it threw, flagged
    [isError] and preceded by one diagnostic line. One invocation sends at
    most three HTTP requests, the ceiling of the client the process builds. *)
Theorem registered_tool_always_answers
  (JSON_parse : string -> Outcome Json) (JSON_stringify : Object -> string)
  (JSON_stringify_pretty : Json -> string) (transport : Transport) (token : string)
  (tool : Tool) (params : Object) (w : World) :
  exists (result : CallToolResult) (sent : World) (logged : World),
    registeredTool JSON_parse JSON_stringify JSON_stringify_pretty transport token
      tool params w
    = (Returned result, w ++ sent ++ logged)
    /\ (length (fetchesOf sent) <= 3)%nat
    /\ ((exists payload,
            perform JSON_parse JSON_stringify transport (client token) (toolCall tool params) w
            = (Returned payload, w ++ sent)
            /\ result = {| isError := None;
                           content := [ {| type := "text";
                                           text := JSON_stringify_pretty payload |} ] |}
            /\ logged = [])
        \/
        (exists e,
            perform JSON_parse JSON_stringify transport (client token) (toolCall tool params) w
            = (Thrown e, w ++ sent)
            /\ result = {| isError := Some true;
                           content := [ {| type := "text";
                                           text := "Error: " +:+ caughtMessage e |} ] |}
            /\ logged = [EvConsoleError ("[Tool Error] " +:+ caughtMessage e)])).
Proof.
  rewrite registeredTool_run.
  destruct (perform_log JSON_parse JSON_stringify transport (client token)
              (toolCall tool params) w)
    as (outcome & sent & Hrun & Hsent).
  assert (Hcount : (length (fetchesOf sent) <= 3)%nat).
  { destruct Hsent as [-> | (url & options & retried & -> & _ & _ & Hbound)]; [cbn; lia |].
    rewrite fetchesOf_attemptsLog, repeat_length. cbn in Hbound. lia. }
  rewrite Hrun. destruct outcome as [payload | e].
  - eexists _, sent, []. split; [now rewrite app_nil_r |]. split; [exact Hcount |].
    left. exists payload. now repeat split.
  - eexists _, sent, _. split; [now rewrite app_assoc |]. split; [exact Hcount |].
    right. exists e. now repeat split.
Qed.

(** Every parameter an operation requires is declared [z.string()] by the
    schema of its tool, so in a parameter object that the schema lets
    through it is a string. *)
Lemma conforms_required_strings (tool : Tool) (params : Object) (f : string) (v : Value) :
  conforms tool params = true ->
  In (f, v) (requiredFields (toolCall tool params)) ->
  exists s, v = VStr s.
Proof.
  unfold conforms. intros Hconf Hin.
  destruct tool; cbn [inputSchema forallb fst snd] in Hconf;
    cbn [toolCall requiredFields sq_dateFrom sq_dateTo orderBy dateFrom dateTo In] in Hin;
    repeat (apply andb_true_iff in Hconf as [? Hconf]);
    repeat (destruct Hin as [Hin | Hin]; [injection Hin as <- <- |]);
    try contradiction;
    unfold get;
    match goal with
    | H : admits RequiredString (params !! ?key) = true |- context [params !! ?key] =>
        destruct (params !! key) as [[] |]; try discriminate H; cbn [default]; eauto
    end.
Qed.

(** X16. When the parameter object passes the schema of its tool and the
    client's check rejects one of the required parameters, that parameter is
    a string that is empty or made of white space only, and the tool answers
    with the error result that names the first such parameter by the name
    the client gives it (so [pageUrl] for the [url] of [request_recrawl]),
    after one diagnostic line and without any HTTP request. *)
Theorem tool_reports_blank_parameter
  (JSON_parse : string -> Outcome Json) (JSON_stringify : Object -> string)
  (JSON_stringify_pretty : Json -> string) (transport : Transport) (token : string)
  (tool : Tool) (params : Object) (w : World) (f : string) (v : Value) :
  conforms tool params = true ->
  List.find (fun fv => rejected (snd fv)) (requiredFields (toolCall tool params))
  = Some (f, v) ->
  let message := f +:+ " is required and must be non-empty" in
  (exists s, v = VStr s /\ whitespaceOnly s = true)
  /\ registeredTool JSON_parse JSON_stringify JSON_stringify_pretty transport token
       tool params w
     = (Returned {| isError := Some true;
                    content := [ {| type := "text"; text := "Error: " +:+ message |} ] |},
        w ++ [EvConsoleError ("[Tool Error] " +:+ message)]).
Proof.
  intros Hconf Hfind. cbv zeta. split.
  - destruct (List.find_some _ _ Hfind) as [Hin Hrejected]. cbn [snd] in Hrejected.
    destruct (conforms_required_strings tool params f v Hconf Hin) as (s & ->).
    exists s. split; [reflexivity |]. now rewrite <- rejected_string.
  - rewrite registeredTool_run.
    now rewrite (perform_rejects JSON_parse JSON_stringify transport (client token)
                   (toolCall tool params) w f v Hfind).
Qed.

(** [request_recrawl] with a [url] of three spaces. *)
Lemma tool_reports_blank_parameter_witness :
  registeredTool sampleParse sampleStringify (fun _ => "{}") notFound "token"
    request_recrawl
    {[ "user_id" := VStr "12345"; "host_id" := VStr "https:a.example:443";
       "url" := VStr "   " ]} []
  = (Returned {| isError := Some true;
                 content := [ {| type := "text";
                                 text := "Error: pageUrl is required and must be non-empty" |} ] |},
     [EvConsoleError "[Tool Error] pageUrl is required and must be non-empty"]).
Proof.
  refine (proj2 (tool_reports_blank_parameter sampleParse sampleStringify (fun _ => "{}")
                   notFound "token" request_recrawl
                   {[ "user_id" := VStr "12345"; "host_id" := VStr "https:a.example:443";
                      "url" := VStr "   " ]} []
                   "pageUrl" (VStr "   ") _ _)).
  - reflexivity.
  - reflexivity.
Defined.

Section Surfacing.

(** A three-digit status other than 500, 502 and 503 with a body free of
    the three markers is not retryable. *)
Lemma unmarked_not_retryable (st : Z) (txt : string) :
  100 <= st <= 599 -> st <> 500 -> st <> 502 -> st <> 503 ->
  includes txt "500" = false -> includes txt "502" = false -> includes txt "503" = false ->
  isRetryableError (upstreamError st txt) = false.
Proof.
  intros Hrange H500 H502 H503 Hb0 Hb2 Hb3.
  rewrite isRetryableError_upstream, Hb0, Hb2, Hb3.
  destruct (status_markers st Hrange) as (-> & -> & ->).
  replace (st =? 500) with false by (symmetry; now apply Z.eqb_neq).
  replace (st =? 502) with false by (symmetry; now apply Z.eqb_neq).
  replace (st =? 503) with false by (symmetry; now apply Z.eqb_neq).
  reflexivity.
Qed.

End Surfacing.

(** X17. An upstream refusal reaches the caller of a tool word for word:
    when the parameters pass the check and the first attempt is answered by
    a three-digit status outside 2xx other than 500, 502, 503, with a body
    free of these markers, the tool sends that one request and answers with
    the error result whose text is "Error: Yandex Webmaster error", the
    status, a colon and the body. *)
Theorem tool_reports_upstream_refusal
  (JSON_parse : string -> Outcome Json) (JSON_stringify : Object -> string)
  (JSON_stringify_pretty : Json -> string) (transport : Transport) (token : string)
  (tool : Tool) (params : Object) (w : World) (st : Z) (txt : string) :
  List.find (fun fv => rejected (snd fv)) (requiredFields (toolCall tool params)) = None ->
  (forall url init, transport (fetchCount w) url init = Responds st txt) ->
  100 <= st <= 599 -> ~ (200 <= st <= 299) ->
  st <> 500 -> st <> 502 -> st <> 503 ->
  includes txt "500" = false -> includes txt "502" = false -> includes txt "503" = false ->
  let message := "Yandex Webmaster error " +:+ numberToString st +:+ ": " +:+ txt in
  exists url init,
    registeredTool JSON_parse JSON_stringify JSON_stringify_pretty transport token
      tool params w
    = (Returned {| isError := Some true;
                   content := [ {| type := "text"; text := "Error: " +:+ message |} ] |},
       w ++ [EvFetch url init; EvConsoleError ("[Tool Error] " +:+ message)]).
Proof.
  intros Hfind Hresp Hrange Hnot2xx H500 H502 H503 Hb0 Hb2 Hb3. cbv zeta.
  destruct (perform_accepted JSON_parse JSON_stringify transport (client token)
              (toolCall tool params) Hfind) as (url & options & Hrun).
  exists url, (fetchOptionsFor JSON_stringify (client token) options).
  rewrite registeredTool_run, Hrun.
  rewrite (makeRequest_propagates _ _ _ _ _ _ _ _ (upstreamError st txt)).
  - cbn [caughtMessage upstreamError newError errorResult]. now rewrite <- app_assoc.
  - rewrite Hresp. unfold settled, ok. cbn [status responseText].
    replace ((200 <=? st) && (st <=? 299)) with false; [reflexivity |].
    symmetry. apply andb_false_iff.
    destruct (Z.leb_spec 200 st); [right; apply Z.leb_gt; lia | now left].
  - rewrite unmarked_not_retryable by assumption. apply andb_false_r.
Qed.

(** [get_host_info] for a host the API does not know. *)
Lemma tool_reports_upstream_refusal_witness :
  exists url init,
    registeredTool sampleParse sampleStringify (fun _ => "{}") notFound "token"
      get_host_info {[ "user_id" := VStr "12345"; "host_id" := VStr "https:a.example:443" ]} []
    = (Returned {| isError := Some true;
                   content := [ {| type := "text";
                                   text := "Error: Yandex Webmaster error 404: host not found" |} ] |},
       [EvFetch url init;
        EvConsoleError "[Tool Error] Yandex Webmaster error 404: host not found"]).
Proof.
  apply (tool_reports_upstream_refusal sampleParse sampleStringify (fun _ => "{}") notFound
           "token" get_host_info
           {[ "user_id" := VStr "12345"; "host_id" := VStr "https:a.example:443" ]} []
           404 "host not found").
  - reflexivity.
  - intros url init. reflexivity.
  - lia.
  - lia.
  - discriminate.
  - discriminate.
  - discriminate.
  - reflexivity.
  - reflexivity.
  - reflexivity.
Defined.

(** X18. A tool whose parameters pass the check and whose first attempt is
    answered with a 2xx status gives the parsed body back as its one text
    block, printed by [JSON.stringify(payload, null, 2)]: the empty object
    for an empty body; [isError] is absent, one request was sent and
    nothing was logged. *)
Theorem tool_returns_printed_payload
  (JSON_parse : string -> Outcome Json) (JSON_stringify : Object -> string)
  (JSON_stringify_pretty : Json -> string) (transport : Transport) (token : string)
  (tool : Tool) (params : Object) (w : World) (st : Z) (txt : string) (payload : Json) :
  List.find (fun fv => rejected (snd fv)) (requiredFields (toolCall tool params)) = None ->
  (forall url init, transport (fetchCount w) url init = Responds st txt) ->
  200 <= st <= 299 ->
  (txt = "" /\ payload = JObject []) \/ (txt <> "" /\ JSON_parse txt = Returned payload) ->
  exists url init,
    registeredTool JSON_parse JSON_stringify JSON_stringify_pretty transport token
      tool params w
    = (Returned {| isError := None;
                   content := [ {| type := "text";
                                   text := JSON_stringify_pretty payload |} ] |},
       w ++ [EvFetch url init]).
Proof.
  intros Hfind Hresp Hst Hparse.
  destruct (perform_accepted JSON_parse JSON_stringify transport (client token)
              (toolCall tool params) Hfind) as (url & options & Hrun).
  exists url, (fetchOptionsFor JSON_stringify (client token) options).
  rewrite registeredTool_run, Hrun.
  rewrite (makeRequest_returns _ _ _ _ _ _ _ _ payload); [reflexivity |].
  rewrite Hresp. unfold settled, ok. cbn [status responseText].
  replace ((200 <=? st) && (st <=? 299)) with true by (symmetry; apply andb_true_iff; lia).
  cbn [negb]. destruct Hparse as [[-> ->] | [Hne Hp]]; [reflexivity |].
  destruct txt; [congruence | exact Hp].
Qed.

(** [get_user_id] answered with 200 and the body [[1]]. *)
Lemma tool_returns_printed_payload_witness :
  exists url init,
    registeredTool sampleParse sampleStringify (fun _ => "[ 1 ]")
      (fun _ _ _ => Responds 200 "[1]") "token" get_user_id ∅ []
    = (Returned {| isError := None;
                   content := [ {| type := "text"; text := "[ 1 ]" |} ] |},
       [EvFetch url init]).
Proof.
  apply (tool_returns_printed_payload sampleParse sampleStringify (fun _ => "[ 1 ]")
           (fun _ _ _ => Responds 200 "[1]") "token" get_user_id ∅ [] 200 "[1]"
           (JArray [JNumber 1])).
  - reflexivity.
  - intros url init. reflexivity.
  - lia.
  - right. split; [discriminate | reflexivity].
Defined.
